(** * Octograph: tariff band resolution, enrichment, pagination and emission

    A shallow embedding of [app/octopus_to_influxdb.py] and
    [app/agileexportonly.py], with the properties of the specification
    stated and settled against it.

    Conventions of the embedding.
    - A Python exception is a value of [exn]; a call that may raise returns
      a [result].  Evaluation order follows the source, so the first
      exception raised by the source is the one returned here.
    - An instant ([maya.MayaDT]) is its whole number of epoch seconds: the
      comparison operators of [MayaDT] compare [int(epoch)].
    - A time zone has one UTC offset (in seconds).  Days on which a zone
      changes its offset are outside the model.
    - Decimal quantities (rates, consumption) are rationals; the source only
      multiplies them and tests them for zero.
    - A JSON object read with [d[k]] or [d.get(k, default)] is a record of
      [option] fields, [None] standing for an absent key. *)

From stdpp Require Import gmap strings list.
From Stdlib Require Import ZArith QArith Ascii String Lia.

Local Open Scope string_scope.
Local Open Scope Z_scope.

(** ** Exceptions and results *)

Inductive exn : Type :=
| KeyError (key : string)
| ValueError (msg : string)
| HTTPError (status : Z)
| JSONDecodeError
| ParserError (text : string)
| UnknownTimeZoneError (zone : string).

Inductive result (A : Type) : Type :=
| Ok (a : A)
| Raise (e : exn).

Arguments Ok {A} a.
Arguments Raise {A} e.

#[global] Instance result_ret : MRet result := fun A a => Ok a.
#[global] Instance result_bind : MBind result := fun A B f r =>
  match r with
  | Ok a => f a
  | Raise e => Raise e
  end.

(** [d[k]] on a dictionary whose entry for [k] may be absent. *)
Definition getitem {A : Type} (key : string) (entry : option A) : result A :=
  match entry with
  | Some v => Ok v
  | None => Raise (KeyError key)
  end.

(** ** Python truth values *)

Definition truthy_str (s : string) : bool :=
  match s with
  | EmptyString => false
  | String _ _ => true
  end.

(** Truth value of a name bound to [None] or to a string. *)
Definition truthy_opt_str (o : option string) : bool :=
  match o with
  | Some s => truthy_str s
  | None => false
  end.

Definition truthy_num (q : Q) : bool := negb (Qeq_bool q 0).

Definition truthy_list {A : Type} (l : list A) : bool :=
  match l with
  | [] => false
  | _ :: _ => true
  end.

(** ** The parts of [maya] the program uses *)

Module Maya.

(** [int(MayaDT.epoch)]. *)
Definition MayaDT : Type := Z.

(** The library functions whose result depends on a textual timestamp or
    on the zone database:
    - [parse s] is [maya.parse(s)], [None] when it raises;
    - [iso8601 t] is [MayaDT.iso8601()];
    - [zone_offset z] is the UTC offset of the zone named [z], in
      seconds, [None] for an unknown name. *)
Class Lib : Type := {
  parse : string -> option MayaDT;
  iso8601 : MayaDT -> string;
  zone_offset : string -> option Z
}.

Definition day : Z := 86400.

(** Day number (days since 1970-01-01) shown by
    [dt.datetime(to_timezone=zone).strftime('%Y-%m-%d')]. *)
Definition local_date (off : Z) (t : MayaDT) : Z := (t + off) / day.

(** Seconds since local midnight of the same local datetime. *)
Definition time_of_day (off : Z) (t : MayaDT) : Z := (t + off) mod day.

Definition digit (c : ascii) : option Z :=
  let n := Z.of_nat (nat_of_ascii c) in
  if (48 <=? n) && (n <=? 57) then Some (n - 48) else None.

Definition two_digits (a b : ascii) : option Z :=
  match digit a, digit b with
  | Some x, Some y => Some (10 * x + y)
  | _, _ => None
  end.

(** The clock part of a [%Y-%m-%dT<clock>] text: [HH:MM] or [HH:MM:SS],
    as seconds since midnight. *)
Definition parse_clock (s : string) : option Z :=
  match s with
  | String h1 (String h2 (String c1 (String m1 (String m2 rest)))) =>
      if Ascii.eqb c1 ":" then
        h ← two_digits h1 h2;
        m ← two_digits m1 m2;
        if (h <? 24) && (m <? 60) then
          match rest with
          | EmptyString => Some (h * 3600 + m * 60)
          | String c2 (String s1 (String s2 EmptyString)) =>
              if Ascii.eqb c2 ":" then
                sec ← two_digits s1 s2;
                if sec <? 60 then Some (h * 3600 + m * 60 + sec) else None
              else None
          | _ => None
          end
        else None
      else None
  | _ => None
  end.

(** [maya.when(f'<date>T<clock>', timezone=zone)] for the local date
    [date] of a zone whose offset is [off]. *)
Definition when_on (off : Z) (date : Z) (clock : string) : result MayaDT :=
  match parse_clock clock with
  | Some s => Ok (date * day + s - off)
  | None => Raise (ValueError "invalid datetime input specified.")
  end.

Record MayaInterval : Type := { start : MayaDT; end_ : MayaDT }.

(** [maya.MayaInterval(start, end)]. *)
Definition interval (s e : MayaDT) : result MayaInterval :=
  if s >? e then Raise (ValueError "MayaInterval cannot end before it starts")
  else Ok {| start := s; end_ := e |}.

(** [dt in interval], that is [interval.contains_dt(dt)]:
    [self.start <= dt < self.end]. *)
Definition contains_dt (i : MayaInterval) (dt : MayaDT) : bool :=
  (start i <=? dt) && (dt <? end_ i).

Definition pad2 (n : Z) : string :=
  String (ascii_of_nat (Z.to_nat (48 + n / 10)))
    (String (ascii_of_nat (Z.to_nat (48 + n mod 10))) EmptyString).

(** [dt.datetime().strftime('%H:%M')]: [datetime()] without a zone is the
    UTC datetime. *)
Definition strftime_HM (t : MayaDT) : string :=
  pad2 (t mod day / 3600) ++ ":" ++ pad2 (t mod 3600 / 60).

(** [dt.datetime(to_timezone=zone).strftime('%H:%M')] for a zone of
    offset [off]: the clock time of that zone. *)
Definition strftime_HM_in (off : Z) (t : MayaDT) : string :=
  strftime_HM (t + off).

End Maya.

(** ** Data read from the API and from the configuration *)

(** One consumption reading, as the API returns it. *)
Record Measurement : Type := {
  interval_start : string;
  interval_end : string;
  consumption : Q
}.

(** One half-hourly Agile price, as the API returns it. *)
Record AgileRate : Type := {
  valid_from : string;
  valid_to : string;
  value_inc_vat : Q
}.

(** The [rate_data] dictionary built by [cmd] for one series.  The zone and
    the conversion factor can be bound to [None], hence the inner [option]. *)
Record RateData : Type := {
  unit_rate : option Q;
  unit_rate_high : option Q;
  unit_rate_low : option Q;
  unit_rate_low_start : option string;
  unit_rate_low_end : option string;
  unit_rate_low_zone : option (option string);
  conversion_factor : option (option Q);
  agile_unit_rates : option (list AgileRate)
}.

(** [rate_data[key]] for the keys that hold a unit rate. *)
Definition rate_getitem (rate_data : RateData) (key : string) : result Q :=
  getitem key
    (if String.eqb key "unit_rate" then unit_rate rate_data
     else if String.eqb key "unit_rate_high" then unit_rate_high rate_data
     else if String.eqb key "unit_rate_low" then unit_rate_low rate_data
     else None).

(** An entry of the [measurements] list of [store_series]. *)
Record Enriched : Type := {
  e_measurement : string;
  e_tags : list (string * string);
  e_time : string;
  e_fields : list (string * Q)
}.

(** A point of the destination: [Point(name).tag(..).field(..).time(..)]. *)
Record Point : Type := {
  p_measurement : string;
  p_tags : list (string * string);
  p_fields : list (string * Q);
  p_time : option string
}.

(** [Point(name)]. *)
Definition new_point (name : string) : Point :=
  {| p_measurement := name; p_tags := []; p_fields := []; p_time := None |}.

(** [point.field(key, value)]. *)
Definition with_field (key : string) (value : Q) (p : Point) : Point :=
  {| p_measurement := p_measurement p; p_tags := p_tags p;
     p_fields := (p_fields p ++ [(key, value)])%list; p_time := p_time p |}.

(** [point.time(t)]. *)
Definition with_time (t : string) (p : Point) : Point :=
  {| p_measurement := p_measurement p; p_tags := p_tags p;
     p_fields := p_fields p; p_time := Some t |}.

(** One call [write_api.write(bucket=.., record=..)]; a single point is a
    record of one point. *)
Record WriteCall : Type := {
  w_bucket : string;
  w_record : list Point
}.

(** ** [store_series] of [octopus_to_influxdb.py] *)

Section StoreSeries.

Context {lib : Maya.Lib}.
Variable series : string.
Variable rate_data : RateData.

Definition agile_data : list AgileRate :=
  default [] (agile_unit_rates rate_data).

(** [{point['valid_to']: point['value_inc_vat'] for point in agile_data}]:
    a later point with the same key replaces an earlier one. *)
Definition agile_rates : gmap string Q :=
  foldl (fun acc point => <[valid_to point := value_inc_vat point]> acc)
        ∅ agile_data.

Definition maya_parse (s : string) : result Maya.MayaDT :=
  match Maya.parse s with
  | Some t => Ok t
  | None => Raise (ParserError s)
  end.

Definition timezone (zone : string) : result Z :=
  match Maya.zone_offset zone with
  | Some off => Ok off
  | None => Raise (UnknownTimeZoneError zone)
  end.

Definition active_rate_field (measurement : Measurement) : result string :=
  if String.eqb series "gas" then Ok "unit_rate"
  else
    zone ← getitem "unit_rate_low_zone" (unit_rate_low_zone rate_data);
    if negb (truthy_opt_str zone) then Ok "unit_rate_high"
    else
      low_start_str ←
        getitem "unit_rate_low_start" (unit_rate_low_start rate_data);
      low_end_str ←
        getitem "unit_rate_low_end" (unit_rate_low_end rate_data);
      let low_zone := default "" zone in
      measurement_at ← maya_parse (interval_start measurement);
      off ← timezone low_zone;
      let date := Maya.local_date off measurement_at in
      low_start ← Maya.when_on off date low_start_str;
      low_end ← Maya.when_on off date low_end_str;
      periods ←
        (if low_start >? low_end then
           low_end_d1 ← Maya.when_on off date "23:59:59";
           low_start_d2 ← Maya.when_on off date "00:00:00";
           low_period_a ← Maya.interval low_start low_end_d1;
           low_period_b ← Maya.interval low_start_d2 low_end;
           Ok (low_period_a, low_period_b)
         else
           low_period ← Maya.interval low_start low_end;
           Ok (low_period, low_period));
      Ok (if Maya.contains_dt periods.1 measurement_at
             || Maya.contains_dt periods.2 measurement_at
          then "unit_rate_low" else "unit_rate_high").

Definition fields_for_measurement (measurement : Measurement)
  : result (list (string * Q)) :=
  let raw := consumption measurement in
  let consumption :=
    match default None (conversion_factor rate_data) with
    | Some factor => if truthy_num factor then (raw * factor)%Q else raw
    | None => raw
    end in
  rate ← active_rate_field measurement;
  let fields := [("consumption", consumption)] in
  if truthy_list agile_data then
    period ← maya_parse (interval_end measurement);
    fallback ← rate_getitem rate_data rate;
    let agile_unit_rate :=
      default fallback (agile_rates !! Maya.iso8601 period) in
    let agile_cost := (agile_unit_rate * consumption)%Q in
    Ok (fields ++ [("agile_rate", agile_unit_rate);
                   ("agile_cost", agile_cost)])%list
  else Ok fields.

Definition tags_for_measurement (measurement : Measurement)
  : result (list (string * string)) :=
  period ← maya_parse (interval_end measurement);
  let time := Maya.strftime_HM period in
  rate ← active_rate_field measurement;
  Ok [("active_rate", rate); ("time_of_day", time)].

Definition enrich (measurement : Measurement) : result Enriched :=
  tags ← tags_for_measurement measurement;
  fields ← fields_for_measurement measurement;
  Ok {| e_measurement := series; e_tags := tags;
        e_time := interval_end measurement; e_fields := fields |}.

(** The [measurements] list comprehension. *)
Definition measurements (metrics : list Measurement)
  : result (list Enriched) :=
  mapM enrich metrics.

(** The points written for one entry of [measurements], one per field. *)
Definition points_of (measurement : Enriched) : list Point :=
  map (fun field =>
         with_time (e_time measurement)
           (with_field field.1 field.2 (new_point "electricity")))
      (e_fields measurement).

(** The write calls of [store_series], in order; nothing is written when
    building [measurements] raises. *)
Definition store_series (metrics : list Measurement)
  : result (list WriteCall) :=
  ms ← measurements metrics;
  Ok (map (fun point => {| w_bucket := "energy"; w_record := [point] |})
          (List.concat (map points_of ms))).

End StoreSeries.

(** ** [retrieve_paginated_data] (the same text in both programs) *)

Section Paginator.

(** The type of one element of [results]. *)
Context {A : Type}.

Record Params : Type := {
  period_from : string;
  period_to : string;
  param_page : option string
}.

Record Request : Type := {
  req_url : string;
  req_params : Params;
  req_auth : string * string
}.

(** A decoded JSON body.  [results] may be absent; [next] may be absent,
    [null] or a URL. *)
Record Body : Type := {
  results : option (list A);
  next : option (option string)
}.

(** A response: its status and what [response.json()] gives, [None] when
    the body is not JSON. *)
Record Response : Type := {
  status_code : Z;
  json : option Body
}.

(** The data source, [requests.get(url, params=.., auth=..)]. *)
Variable requests_get : Request -> Response.

(** [parse.parse_qs(parse.urlparse(u).query)['page'][0]], [None] when the
    query string of [u] has no [page]. *)
Variable query_page : string -> option string.

Definition raise_for_status (response : Response) : result unit :=
  let code := status_code response in
  if (400 <=? code) && (code <? 600) then Raise (HTTPError code)
  else Ok tt.

Definition response_json (response : Response) : result Body :=
  match json response with
  | Some data => Ok data
  | None => Raise JSONDecodeError
  end.

(** The request of one call: [page] is sent only when it is truthy. *)
Definition request (api_key url from_date to_date : string)
    (page : option string) : Request :=
  {| req_url := url;
     req_params :=
       {| period_from := from_date; period_to := to_date;
          param_page := if truthy_opt_str page then page else None |};
     req_auth := (api_key, "") |}.

(** The recursion of the source is bounded by [fuel], one unit per
    request; [None] means the fuel ran out. *)
Fixpoint retrieve_paginated_data (fuel : nat)
    (api_key url from_date to_date : string) (page : option string)
  : option (result (list A)) :=
  match fuel with
  | O => None
  | S fuel' =>
      let response :=
        requests_get (request api_key url from_date to_date page) in
      match raise_for_status response with
      | Raise e => Some (Raise e)
      | Ok _ =>
          match response_json response with
          | Raise e => Some (Raise e)
          | Ok data =>
              let results := default [] (results data) in
              match getitem "next" (next data) with
              | Raise e => Some (Raise e)
              | Ok next_url =>
                  if truthy_opt_str next_url then
                    match getitem "page"
                            (query_page (default "" next_url)) with
                    | Raise e => Some (Raise e)
                    | Ok next_page =>
                        match retrieve_paginated_data fuel' api_key url
                                from_date to_date (Some next_page) with
                        | None => None
                        | Some (Raise e) => Some (Raise e)
                        | Some (Ok more) => Some (Ok (results ++ more)%list)
                        end
                    end
                  else Some (Ok results)
              end
          end
      end
  end.

(** *** What a source serves

    [serves .. page pages]: asked for [page], the source answers with
    the first list of [pages] and a continuation token for the rest, and
    so on until the last list, which comes with [next = null]. *)
Inductive serves (api_key url from_date to_date : string)
  : option string -> list (list A) -> Prop :=
| serves_last page code rs :
    requests_get (request api_key url from_date to_date page)
    = {| status_code := code;
         json := Some {| results := Some rs; next := Some None |} |} ->
    ~ (400 <= code < 600) ->
    serves api_key url from_date to_date page [rs]
| serves_more page code rs next_url token rest :
    requests_get (request api_key url from_date to_date page)
    = {| status_code := code;
         json := Some {| results := Some rs;
                         next := Some (Some next_url) |} |} ->
    ~ (400 <= code < 600) ->
    next_url <> "" ->
    query_page next_url = Some token ->
    serves api_key url from_date to_date (Some token) rest ->
    serves api_key url from_date to_date page (rs :: rest).

(** [fails_after .. n page e]: starting from [page], the source answers
    [n] requests well, each with a continuation token, and the request
    after them fails with [e]: an error status, a body that is not JSON,
    a body without [next], or a [next] URL without a page token. *)
Inductive fails_after (api_key url from_date to_date : string)
  : nat -> option string -> exn -> Prop :=
| fails_status page response :
    requests_get (request api_key url from_date to_date page) = response ->
    400 <= status_code response < 600 ->
    fails_after api_key url from_date to_date 0 page
      (HTTPError (status_code response))
| fails_body page response :
    requests_get (request api_key url from_date to_date page) = response ->
    ~ (400 <= status_code response < 600) ->
    json response = None ->
    fails_after api_key url from_date to_date 0 page JSONDecodeError
| fails_no_next page response data :
    requests_get (request api_key url from_date to_date page) = response ->
    ~ (400 <= status_code response < 600) ->
    json response = Some data ->
    next data = None ->
    fails_after api_key url from_date to_date 0 page (KeyError "next")
| fails_no_token page response data next_url :
    requests_get (request api_key url from_date to_date page) = response ->
    ~ (400 <= status_code response < 600) ->
    json response = Some data ->
    next data = Some (Some next_url) ->
    next_url <> "" ->
    query_page next_url = None ->
    fails_after api_key url from_date to_date 0 page (KeyError "page")
| fails_later n page response data next_url token e :
    requests_get (request api_key url from_date to_date page) = response ->
    ~ (400 <= status_code response < 600) ->
    json response = Some data ->
    next data = Some (Some next_url) ->
    next_url <> "" ->
    query_page next_url = Some token ->
    fails_after api_key url from_date to_date n (Some token) e ->
    fails_after api_key url from_date to_date (S n) page e.

End Paginator.

Arguments Body A : clear implicits.
Arguments Response A : clear implicits.

(** ** [store_agilerates] of [agileexportonly.py] *)

Definition agile_point (agile_rate : AgileRate) : Point :=
  with_time (valid_from agile_rate)
    (with_field "agile_rate" (value_inc_vat agile_rate)
       (new_point "electricity")).

(** The [for] loop: [points] is the pending batch, [written] the write
    calls made so far. *)
Fixpoint agile_loop (agile_data : list AgileRate) (points : list Point)
    (written : list WriteCall) : list Point * list WriteCall :=
  match agile_data with
  | [] => (points, written)
  | agile_rate :: rest =>
      let points := (points ++ [agile_point agile_rate])%list in
      if Z.of_nat (List.length points) >? 48 then
        agile_loop rest []
          (written ++ [{| w_bucket := "energy"; w_record := points |}])%list
      else agile_loop rest points written
  end.

(** The write calls of [store_agilerates], in order. *)
Definition store_agilerates (agile_data : list AgileRate) : list WriteCall :=
  let '(points, written) := agile_loop agile_data [] [] in
  (written ++ [{| w_bucket := "energy"; w_record := points |}])%list.

(** ** An instance of the library functions, for timestamps as the API
    writes them

    [YYYY-MM-DDTHH:MM:SS] followed by [Z] or by an offset [+HH:MM] or
    [-HH:MM], the proleptic Gregorian calendar, and three zones of constant
    offset. *)

Module Iso.

(** Days from 1970-01-01 to the civil date [y]-[m]-[d]. *)
Definition days_from_civil (y m d : Z) : Z :=
  let y := if m <=? 2 then y - 1 else y in
  let era := y / 400 in
  let yoe := y - era * 400 in
  let doy := (153 * (if m >? 2 then m - 3 else m + 9) + 2) / 5 + d - 1 in
  let doe := yoe * 365 + yoe / 4 - yoe / 100 + doy in
  era * 146097 + doe - 719468.

(** The civil date [(y, m, d)] of a day number. *)
Definition civil_from_days (z : Z) : Z * Z * Z :=
  let z := z + 719468 in
  let era := z / 146097 in
  let doe := z - era * 146097 in
  let yoe := (doe - doe / 1460 + doe / 36524 - doe / 146096) / 365 in
  let doy := doe - (365 * yoe + yoe / 4 - yoe / 100) in
  let mp := (5 * doy + 2) / 153 in
  let d := doy - (153 * mp + 2) / 5 + 1 in
  let m := if mp <? 10 then mp + 3 else mp - 9 in
  (yoe + era * 400 + (if m <=? 2 then 1 else 0), m, d).

Fixpoint digits (s : string) (acc : Z) : option Z :=
  match s with
  | EmptyString => Some acc
  | String c rest =>
      match Maya.digit c with
      | Some d => digits rest (10 * acc + d)
      | None => None
      end
  end.

(** The number written in the [len] characters of [s] from [pos]. *)
Definition field (s : string) (pos len : nat) : option Z :=
  let f := substring pos len s in
  if Nat.eqb (String.length f) len then digits f 0 else None.

Definition char_at (s : string) (pos : nat) (c : ascii) : bool :=
  match String.get pos s with
  | Some c' => Ascii.eqb c c'
  | None => false
  end.

(** The UTC offset written from position 19 on. *)
Definition suffix_offset (s : string) : option Z :=
  if String.eqb (substring 19 6 s) "Z" then Some 0
  else if Nat.eqb (String.length s) 25 && char_at s 22 ":" then
    h ← field s 20 2;
    m ← field s 23 2;
    if char_at s 19 "+" then Some (h * 3600 + m * 60)
    else if char_at s 19 "-" then Some (- (h * 3600 + m * 60))
    else None
  else None.

Definition parse (s : string) : option Maya.MayaDT :=
  if char_at s 4 "-" && char_at s 7 "-" && char_at s 10 "T"
     && char_at s 13 ":" && char_at s 16 ":" then
    y ← field s 0 4;
    mo ← field s 5 2;
    d ← field s 8 2;
    h ← field s 11 2;
    mi ← field s 14 2;
    sec ← field s 17 2;
    off ← suffix_offset s;
    Some (days_from_civil y mo d * 86400 + h * 3600 + mi * 60 + sec - off)
  else None.

Definition pad4 (n : Z) : string :=
  (Maya.pad2 (n / 100) ++ Maya.pad2 (n mod 100))%string.

Definition iso8601 (t : Maya.MayaDT) : string :=
  let '(y, m, d) := civil_from_days (t / 86400) in
  let s := t mod 86400 in
  (pad4 y ++ "-" ++ Maya.pad2 m ++ "-" ++ Maya.pad2 d ++ "T"
   ++ Maya.pad2 (s / 3600) ++ ":" ++ Maya.pad2 (s mod 3600 / 60) ++ ":"
   ++ Maya.pad2 (s mod 60) ++ "Z")%string.

Definition zone_offset (zone : string) : option Z :=
  if String.eqb zone "UTC" then Some 0
  else if String.eqb zone "Etc/GMT-1" then Some 3600
  else if String.eqb zone "Etc/GMT+5" then Some (-18000)
  else None.

Definition lib : Maya.Lib :=
  {| Maya.parse := parse; Maya.iso8601 := iso8601;
     Maya.zone_offset := zone_offset |}.

(** The text after the first occurrence of [c] in [s]. *)
Fixpoint after (c : ascii) (s : string) : option string :=
  match s with
  | EmptyString => None
  | String c' rest => if Ascii.eqb c c' then Some rest else after c rest
  end.

(** The text before the first occurrence of [c] in [s]. *)
Fixpoint before (c : ascii) (s : string) : string :=
  match s with
  | EmptyString => EmptyString
  | String c' rest =>
      if Ascii.eqb c c' then EmptyString else String c' (before c rest)
  end.

(** The value of the first non-blank [key=value] pair of the query, for
    a query without percent-escapes; [fuel] bounds the number of pairs. *)
Fixpoint lookup_pair (fuel : nat) (key query : string) : option string :=
  match fuel with
  | O => None
  | S fuel' =>
      let pair := before "&" query in
      match after "=" pair with
      | Some value =>
          if String.eqb (before "=" pair) key && truthy_str value
          then Some value
          else match after "&" query with
               | Some rest => lookup_pair fuel' key rest
               | None => None
               end
      | None =>
          match after "&" query with
          | Some rest => lookup_pair fuel' key rest
          | None => None
          end
      end
  end.

Definition query_page (url : string) : option string :=
  match after "?" (before "#" url) with
  | Some query => lookup_pair (S (String.length query)) "page" query
  | None => None
  end.

End Iso.

(** ** The rate data built by [cmd] of [octopus_to_influxdb.py] *)

(** The options of the configuration file that [cmd] reads into
    [rate_data], [None] for an option that is not set. *)
Record Config : Type := {
  cfg_unit_rate_high : option Q;
  cfg_unit_rate_low : option Q;
  cfg_unit_rate_low_start : option string;
  cfg_unit_rate_low_end : option string;
  cfg_unit_rate_low_zone : option string;
  cfg_gas_unit_rate : option Q;
  cfg_gas_meter_type : option Z;
  cfg_gas_vcf : option Q;
  cfg_gas_cv : option Q
}.

(** [rate_data['electricity']], with the retrieved Agile rates. *)
Definition electricity_rate_data (config : Config)
    (agile : list AgileRate) : RateData :=
  {| unit_rate := None;
     unit_rate_high := Some (default 0%Q (cfg_unit_rate_high config));
     unit_rate_low := Some (default 0%Q (cfg_unit_rate_low config));
     unit_rate_low_start :=
       Some (default "00:00" (cfg_unit_rate_low_start config));
     unit_rate_low_end :=
       Some (default "00:00" (cfg_unit_rate_low_end config));
     unit_rate_low_zone := Some (cfg_unit_rate_low_zone config);
     conversion_factor := None;
     agile_unit_rates := Some agile |}.

(** [rate_data['gas']]. *)
Definition gas_rate_data (config : Config) : RateData :=
  {| unit_rate := Some (default 0%Q (cfg_gas_unit_rate config));
     unit_rate_high := None;
     unit_rate_low := None;
     unit_rate_low_start := None;
     unit_rate_low_end := None;
     unit_rate_low_zone := None;
     conversion_factor :=
       Some (if default 1 (cfg_gas_meter_type config) >? 1
             then Some (default (102264 # 100000) (cfg_gas_vcf config)
                        * default 40 (cfg_gas_cv config) / (36 # 10))%Q
             else None);
     agile_unit_rates := None |}.

(** ** Sample data *)

Module Sample.

(** A night band across midnight, 23:30 to 05:30, one hour east of UTC. *)
Definition night_config : Config :=
  {| cfg_unit_rate_high := Some (30 # 100)%Q;
     cfg_unit_rate_low := Some (10 # 100)%Q;
     cfg_unit_rate_low_start := Some "23:30";
     cfg_unit_rate_low_end := Some "05:30";
     cfg_unit_rate_low_zone := Some "Etc/GMT-1";
     cfg_gas_unit_rate := Some (7 # 100)%Q;
     cfg_gas_meter_type := Some 2;
     cfg_gas_vcf := None;
     cfg_gas_cv := None |}.


(** A zone, and no low band declared. *)
Definition flat_config : Config :=
  {| cfg_unit_rate_high := Some (30 # 100)%Q;
     cfg_unit_rate_low := None;
     cfg_unit_rate_low_start := None;
     cfg_unit_rate_low_end := None;
     cfg_unit_rate_low_zone := Some "UTC";
     cfg_gas_unit_rate := None;
     cfg_gas_meter_type := None;
     cfg_gas_vcf := None;
     cfg_gas_cv := None |}.

Definition reading (from_ to_ : string) (units : Q) : Measurement :=
  {| interval_start := from_; interval_end := to_; consumption := units |}.

Definition night_rates : RateData := electricity_rate_data night_config [].
Definition flat_rates : RateData := electricity_rate_data flat_config [].

(** Readings named after the local time at which they start. *)
Definition night_0015 : Measurement :=
  reading "2023-06-01T00:15:00+01:00" "2023-06-01T00:45:00+01:00" (12 # 10).
Definition night_0530 : Measurement :=
  reading "2023-06-01T05:30:00+01:00" "2023-06-01T06:00:00+01:00" (12 # 10).
Definition utc_0000 : Measurement :=
  reading "2023-06-01T00:00:00Z" "2023-06-01T00:30:00Z" (12 # 10).

(** One Agile price, for the half hour that ends at 23:00 UTC. *)
Definition price : AgileRate :=
  {| valid_from := "2023-05-31T22:30:00Z";
     valid_to := "2023-05-31T23:00:00Z";
     value_inc_vat := (2184 # 100)%Q |}.

Definition agile : list AgileRate := [price].

(** Forty-nine prices. *)
Definition prices_49 : list AgileRate := repeat price 49.

(** The night schedule with that price series. *)
Definition agile_night_rates : RateData :=
  electricity_rate_data night_config agile.

(** A gas meter that reports volume: the factor is 1 * 9 / 3.6 = 2.5. *)
Definition gas_config : Config :=
  {| cfg_unit_rate_high := None;
     cfg_unit_rate_low := None;
     cfg_unit_rate_low_start := None;
     cfg_unit_rate_low_end := None;
     cfg_unit_rate_low_zone := None;
     cfg_gas_unit_rate := Some (7 # 100)%Q;
     cfg_gas_meter_type := Some 2;
     cfg_gas_vcf := Some 1%Q;
     cfg_gas_cv := Some 9%Q |}.

Definition gas_rates : RateData := gas_rate_data gas_config.

Definition gas_reading : Measurement :=
  reading "2023-06-01T00:00:00Z" "2023-06-01T00:30:00Z" 10.

Definition api_key : string := "sk_live_0123456789".
Definition consumption_url : string :=
  "https://api.octopus.energy/v1/electricity-meter-points/m/meters/s/consumption/".
Definition from_date : string := "2023-06-01T00:00:00Z".
Definition to_date : string := "2023-06-02T00:00:00Z".

(** A source of three pages of 100, 100 and 7 records, the records being
    numbered from 0. *)
Definition page_url (token : string) : string :=
  ("https://api.octopus.energy/v1/electricity-meter-points/m/meters/s/consumption/?page="
   ++ token ++ "&period_from=2023-06-01T00:00:00Z")%string.

Definition ok_page (rs : list nat) (next_url : option string)
  : Response nat :=
  {| status_code := 200;
     json := Some {| results := Some rs; next := Some next_url |} |}.

Definition three_pages (r : Request) : Response nat :=
  match param_page (req_params r) with
  | None => ok_page (seq 0 100) (Some (page_url "2"))
  | Some token =>
      if String.eqb token "2" then ok_page (seq 100 100) (Some (page_url "3"))
      else if String.eqb token "3" then ok_page (seq 200 7) None
      else {| status_code := 404; json := None |}
  end.

(** A source of one page. *)
Definition one_page (r : Request) : Response nat :=
  ok_page (seq 0 5) None.

(** The same source as [three_pages], except that the third request is
    answered with status 500. *)
Definition third_request_fails (r : Request) : Response nat :=
  match param_page (req_params r) with
  | None => ok_page (seq 0 100) (Some (page_url "2"))
  | Some token =>
      if String.eqb token "2" then ok_page (seq 100 100) (Some (page_url "3"))
      else {| status_code := 500; json := None |}
  end.

(** The same source as [three_pages], except that the body of the second
    page has no [results]. *)
Definition second_page_without_results (r : Request) : Response nat :=
  match param_page (req_params r) with
  | None => ok_page (seq 0 100) (Some (page_url "2"))
  | Some token =>
      if String.eqb token "2" then
        {| status_code := 200;
           json := Some {| results := None;
                           next := Some (Some (page_url "3")) |} |}
      else if String.eqb token "3" then ok_page (seq 200 7) None
      else {| status_code := 404; json := None |}
  end.

End Sample.

(** ** The low band as a predicate on the local time of day

    [ls] and [le] are the band's start and end, [tod] the local time of day
    of the instant, all in seconds since local midnight. *)
Definition in_low_band (ls le tod : Z) : bool :=
  if ls >? le then
    ((ls <=? tod) && (tod <? 86399)) || (tod <? le)
  else (ls <=? tod) && (tod <? le).

(** ** Banded schedules

    [banded series rate_data off ls le]: the series is not the gas series,
    and its rate data name a zone of offset [off] and a low band that
    starts at [ls] and ends at [le], in seconds since local midnight. *)
Record banded {lib : Maya.Lib} (series : string) (rate_data : RateData)
    (off ls le : Z) : Prop := {
  banded_series : series <> "gas";
  banded_zone :
    exists zone, unit_rate_low_zone rate_data = Some (Some zone)
                 /\ zone <> "" /\ Maya.zone_offset zone = Some off;
  banded_start :
    exists text, unit_rate_low_start rate_data = Some text
                 /\ Maya.parse_clock text = Some ls;
  banded_end :
    exists text, unit_rate_low_end rate_data = Some text
                 /\ Maya.parse_clock text = Some le
}.

(** ** Chains of answers of a source

    The chains that [retrieve_paginated_data] can follow to their end, with
    every answer it accepts: a body without [results] is an empty page, and
    a [next] that is [null] or empty ends the chain. *)

Section PaginatorChains.

Context {A : Type}.
Variable requests_get : Request -> Response A.
Variable query_page : string -> option string.

(** The request for [page] is answered with a status outside 400..599 and
    a JSON body whose results are [rs] and whose [next] is [next_url]. *)
Definition answers (api_key url from_date to_date : string)
    (page : option string) (rs : list A) (next_url : option string) : Prop :=
  let response :=
    requests_get (request api_key url from_date to_date page) in
  ~ (400 <= status_code response < 600)
  /\ exists data, json response = Some data
                  /\ default [] (results data) = rs
                  /\ next data = Some next_url.

Inductive fetched (api_key url from_date to_date : string)
  : option string -> list (list A) -> Prop :=
| fetched_last page rs next_url :
    answers api_key url from_date to_date page rs next_url ->
    truthy_opt_str next_url = false ->
    fetched api_key url from_date to_date page [rs]
| fetched_more page rs next_url token rest :
    answers api_key url from_date to_date page rs (Some next_url) ->
    truthy_str next_url = true ->
    query_page next_url = Some token ->
    fetched api_key url from_date to_date (Some token) rest ->
    fetched api_key url from_date to_date page (rs :: rest).

(** Every request is answered with a page and a continuation token. *)
Definition endless (api_key url from_date to_date : string) : Prop :=
  forall page, exists rs next_url token,
    answers api_key url from_date to_date page rs (Some next_url)
    /\ truthy_str next_url = true
    /\ query_page next_url = Some token.

End PaginatorChains.

(** ** Further sample data *)

Module Cases.

(** A source that answers every request with three records and the URL of
    page 2. *)
Definition looping (r : Request) : Response nat :=
  Sample.ok_page (seq 0 3) (Some (Sample.page_url "2")).

(** Readings named after the local time at which they start. *)
Definition next_night_0015 : Measurement :=
  Sample.reading "2023-06-02T00:15:00+01:00" "2023-06-02T00:45:00+01:00"
    (7 # 10).
Definition night_235959 : Measurement :=
  Sample.reading "2023-06-01T23:59:59+01:00" "2023-06-02T00:29:59+01:00"
    (7 # 10).

(** A price series with two prices for the half hour that ends at 23:45
    UTC, the second one last in the series. *)
Definition first_price : AgileRate :=
  {| valid_from := "2023-05-31T23:15:00Z";
     valid_to := "2023-05-31T23:45:00Z";
     value_inc_vat := 20 |}.
Definition last_price : AgileRate :=
  {| valid_from := "2023-05-31T23:15:00Z";
     valid_to := "2023-05-31T23:45:00Z";
     value_inc_vat := 25 |}.
Definition twice_priced : list AgileRate :=
  [first_price; Sample.price; last_price].

Definition twice_priced_rates : RateData :=
  electricity_rate_data Sample.night_config twice_priced.

(** Rate data, not built by [cmd], without a low rate. *)
Definition no_low_rate : RateData :=
  {| unit_rate := None;
     unit_rate_high := Some (30 # 100)%Q;
     unit_rate_low := None;
     unit_rate_low_start := Some "23:30";
     unit_rate_low_end := Some "05:30";
     unit_rate_low_zone := Some (Some "Etc/GMT-1");
     conversion_factor := None;
     agile_unit_rates := Some twice_priced |}.

(** A reading whose [interval_end] is no timestamp. *)
Definition malformed : Measurement :=
  Sample.reading "2023-06-01T01:00:00+01:00" "soon" (7 # 10).

(** A configuration file that sets nothing. *)
Definition unset_config : Config :=
  {| cfg_unit_rate_high := None;
     cfg_unit_rate_low := None;
     cfg_unit_rate_low_start := None;
     cfg_unit_rate_low_end := None;
     cfg_unit_rate_low_zone := None;
     cfg_gas_unit_rate := None;
     cfg_gas_meter_type := None;
     cfg_gas_vcf := None;
     cfg_gas_cv := None |}.

(** Two gas readings that end at the same time, the second with an
    [interval_start] that is no timestamp. *)
Definition gas_reading_bad_start : Measurement :=
  Sample.reading "midnight?" "2023-06-01T00:30:00Z" 10.

End Cases.

(** * Properties *)

(** Case analysis on the first integer comparison of the goal. *)
Ltac split_comparison :=
  match goal with
  | |- context [?a >? ?b] => destruct (Z.gtb_spec a b)
  | |- context [?a <=? ?b] => destruct (Z.leb_spec a b)
  | |- context [?a <? ?b] => destruct (Z.ltb_spec a b)
  end.

(** ** The rate band resolver *)

Section Resolver.

Context {lib : Maya.Lib}.

Lemma digit_range c d : Maya.digit c = Some d -> 0 <= d <= 9.
Proof.
  unfold Maya.digit. intros H.
  destruct ((48 <=? _) && (_ <=? 57)) eqn:E; [|discriminate].
  apply andb_true_iff in E as [E1 E2].
  apply Z.leb_le in E1, E2. injection H as <-. lia.
Qed.

Lemma two_digits_range a b v : Maya.two_digits a b = Some v -> 0 <= v <= 99.
Proof.
  unfold Maya.two_digits. intros H.
  destruct (Maya.digit a) as [x|] eqn:Ea; [|discriminate].
  destruct (Maya.digit b) as [y|] eqn:Eb; [|discriminate].
  apply digit_range in Ea, Eb. injection H as <-. lia.
Qed.

Lemma parse_clock_range text v :
  Maya.parse_clock text = Some v -> 0 <= v < 86400.
Proof.
  destruct text as [|h1 [|h2 [|c1 [|m1 [|m2 rest]]]]]; try discriminate.
  cbn [Maya.parse_clock].
  destruct (Ascii.eqb c1 ":"); [|discriminate].
  destruct (Maya.two_digits h1 h2) as [h|] eqn:Eh; [|discriminate].
  destruct (Maya.two_digits m1 m2) as [m|] eqn:Em; [|discriminate].
  cbn [mbind option_bind].
  apply two_digits_range in Eh, Em.
  destruct ((h <? 24) && (m <? 60)) eqn:E; [|discriminate].
  apply andb_true_iff in E as [E1 E2]. apply Z.ltb_lt in E1, E2.
  destruct rest as [|c2 [|s1 [|s2 [|]]]]; try discriminate.
  - intros [= <-]. lia.
  - destruct (Ascii.eqb c2 ":"); [|discriminate].
    destruct (Maya.two_digits s1 s2) as [sec|] eqn:Es; [|discriminate].
    cbn [mbind option_bind].
    apply two_digits_range in Es.
    destruct (sec <? 60) eqn:E3; [|discriminate].
    apply Z.ltb_lt in E3. intros [= <-]. lia.
Qed.

Lemma local_split off t :
  t = Maya.local_date off t * Maya.day + Maya.time_of_day off t - off
  /\ 0 <= Maya.time_of_day off t < 86400.
Proof.
  unfold Maya.local_date, Maya.time_of_day, Maya.day. split.
  - pose proof (Z.div_mod (t + off) 86400). lia.
  - apply Z.mod_pos_bound. lia.
Qed.

(** What [active_rate_field] computes for a banded schedule, whatever
    the order of the band's start and end. *)
Lemma active_rate_field_banded series rate_data off ls le measurement t :
  banded series rate_data off ls le ->
  Maya.parse (interval_start measurement) = Some t ->
  active_rate_field series rate_data measurement
  = Ok (if in_low_band ls le (Maya.time_of_day off t)
        then "unit_rate_low" else "unit_rate_high").
Proof.
  intros [Hs (zone & Hz & Hne & Hoff) (ts & Hts & Hls) (te & Hte & Hle)] Ht.
  unfold active_rate_field.
  apply String.eqb_neq in Hs. rewrite Hs, Hz. cbn [getitem mbind result_bind].
  destruct zone as [|c zone]; [contradiction|].
  cbn [truthy_opt_str truthy_str negb from_option id].
  rewrite Hts, Hte. cbn [getitem mbind result_bind].
  unfold maya_parse, timezone. rewrite Ht, Hoff.
  cbn [mbind result_bind].
  unfold Maya.when_on. rewrite Hls, Hle. cbn [mbind result_bind].
  change (Maya.parse_clock "23:59:59") with (Some 86399).
  change (Maya.parse_clock "00:00:00") with (Some 0).
  apply parse_clock_range in Hls, Hle.
  destruct (local_split off t) as [Et Htod].
  set (date := Maya.local_date off t) in *.
  set (tod := Maya.time_of_day off t) in *.
  unfold in_low_band, Maya.interval, Maya.contains_dt, Maya.day in *.
  clearbody date tod. clear Ht. subst t.
  repeat (split_comparison;
          cbn [mbind result_bind fst snd Maya.start Maya.end_ andb orb];
          try lia; try reflexivity).
Qed.



(** C3.  A schedule of a series other than gas that declares no low
    band, either because no zone is set for the band or because the band
    starts and ends at one and the same time of day, resolves to the
    high rate at every instant, and raises nothing. *)
Theorem no_low_band_is_high series rate_data measurement :
  series <> "gas" ->
  (exists zone, unit_rate_low_zone rate_data = Some zone
                /\ truthy_opt_str zone = false)
  \/ (exists off b t, banded series rate_data off b b
                      /\ Maya.parse (interval_start measurement) = Some t) ->
  active_rate_field series rate_data measurement = Ok "unit_rate_high".
Proof.
  intros Hs [(zone & Hz & Hfalse) | (off & b & t & Hb & Ht)].
  - unfold active_rate_field.
    apply String.eqb_neq in Hs. rewrite Hs, Hz.
    cbn [getitem mbind result_bind]. now rewrite Hfalse.
  - rewrite (active_rate_field_banded _ _ _ _ _ _ _ Hb Ht).
    unfold in_low_band.
    repeat (split_comparison; cbn [andb orb]); try lia; reflexivity.
Qed.
End Resolver.

(** *** The resolver on the sample schedules *)

(** The night band of [Sample.night_config] is a banded schedule. *)
Lemma night_band :
  banded (lib := Iso.lib) "electricity" Sample.night_rates 3600 84600 19800.
Proof.
  split; [discriminate | exists "Etc/GMT-1" | exists "23:30" | exists "05:30"];
    repeat split; discriminate.
Defined.


(** [cmd] reads an unset start and an unset end as 00:00 both. *)
Lemma unset_band :
  banded (lib := Iso.lib) "electricity" Sample.flat_rates 0 0 0.
Proof.
  split; [discriminate | exists "UTC" | exists "00:00" | exists "00:00"];
    repeat split; discriminate.
Defined.





(** A schedule with a zone and neither start nor end set: the high rate,
    also at 00:00, the one time of day both ends name. *)
Lemma no_low_band_is_high_witness :
  active_rate_field (lib := Iso.lib) "electricity" Sample.flat_rates
    Sample.utc_0000 = Ok "unit_rate_high".
Proof.
  apply (no_low_band_is_high (lib := Iso.lib)); [discriminate |].
  right. exists 0, 0, 1685577600. split; [exact unset_band | reflexivity].
Defined.

(** ** The measurement enricher *)

Section Enricher.

Context {lib : Maya.Lib}.

Lemma agile_fold_lookup_None (points : list AgileRate) key :
  (forall point, point ∈ points -> valid_to point <> key) ->
  forall acc : gmap string Q,
    acc !! key = None ->
    foldl (fun acc point => <[valid_to point := value_inc_vat point]> acc)
          acc points !! key = None.
Proof.
  induction points as [|point points IH]; intros Hkeys acc Hacc.
  - exact Hacc.
  - cbn [foldl]. apply IH.
    + intros q Hq. apply Hkeys. now apply list_elem_of_further.
    + rewrite lookup_insert_ne; [exact Hacc |].
      apply Hkeys. apply list_elem_of_here.
Qed.

(** No price is found under a key that no point of the series carries. *)
Lemma agile_rates_lookup_None rate_data key :
  (forall point, point ∈ agile_data rate_data -> valid_to point <> key) ->
  agile_rates rate_data !! key = None.
Proof.
  intros Hkeys. unfold agile_rates.
  apply agile_fold_lookup_None; [exact Hkeys | apply lookup_empty].
Qed.

Lemma truthy_list_nonempty {A} (l : list A) : l <> [] -> truthy_list l = true.
Proof. destruct l; [contradiction | reflexivity]. Qed.

(** C4, amended.  When the price series supplied is not empty and none of
    its points has a [valid_to] equal to the ISO 8601 form of the
    reading's [interval_end], the [agile_rate] field is the static rate
    of the schedule for the band resolved for the reading, and
    [agile_cost] is that rate times the [consumption] field. *)
Theorem agile_fallback_is_static_rate
    series rate_data measurement period rate static :
  agile_data rate_data <> [] ->
  Maya.parse (interval_end measurement) = Some period ->
  (forall point, point ∈ agile_data rate_data ->
                 valid_to point <> Maya.iso8601 period) ->
  active_rate_field series rate_data measurement = Ok rate ->
  rate_getitem rate_data rate = Ok static ->
  exists units,
    fields_for_measurement series rate_data measurement
    = Ok [("consumption", units); ("agile_rate", static);
          ("agile_cost", (static * units)%Q)].
Proof.
  intros Hsupplied Hperiod Hkeys Hrate Hstatic.
  unfold fields_for_measurement.
  rewrite Hrate. cbn [mbind result_bind].
  rewrite (truthy_list_nonempty _ Hsupplied).
  unfold maya_parse. rewrite Hperiod, Hstatic. cbn [mbind result_bind].
  rewrite (agile_rates_lookup_None _ _ Hkeys). cbn [from_option id].
  eexists. reflexivity.
Qed.


(** The resolved band reads nothing of a reading but [interval_start]. *)
Lemma active_rate_field_interval_start series rate_data m1 m2 :
  interval_start m1 = interval_start m2 ->
  active_rate_field series rate_data m1
  = active_rate_field series rate_data m2.
Proof. intros E. unfold active_rate_field. now rewrite E. Qed.

(** C8, amended.  The [time_of_day] tag of a reading is the clock time
    HH:MM of its [interval_end] in UTC (offset 0), whatever zone the
    schedule names; the tag takes no part in the choice of the active
    rate, which is resolved from [interval_start] alone. *)
Theorem time_of_day_tag_is_utc_clock
    series rate_data measurement period rate :
  Maya.parse (interval_end measurement) = Some period ->
  active_rate_field series rate_data measurement = Ok rate ->
  tags_for_measurement series rate_data measurement
  = Ok [("active_rate", rate);
        ("time_of_day", Maya.strftime_HM_in 0 period)]
  /\ forall other,
       interval_start other = interval_start measurement ->
       active_rate_field series rate_data other = Ok rate.
Proof.
  intros Hperiod Hrate. split.
  - unfold tags_for_measurement, maya_parse.
    rewrite Hperiod, Hrate. cbn [mbind result_bind].
    unfold Maya.strftime_HM_in. now rewrite Z.add_0_r.
  - intros other E.
    now rewrite (active_rate_field_interval_start _ _ _ _ E).
Qed.

(** C10.  The [consumption] field is the raw consumption when the rate
    data have no conversion factor, when the factor is [None] and when
    it is zero, and the raw consumption times the factor when the factor
    is not zero; the Agile cost is computed from the field so
    converted. *)
Theorem conversion_factor_applied_unless_falsy
    series rate_data measurement rate :
  active_rate_field series rate_data measurement = Ok rate ->
  exists units : Q,
    (conversion_factor rate_data = None
     \/ conversion_factor rate_data = Some None
     \/ (exists factor, conversion_factor rate_data = Some (Some factor)
                        /\ (factor == 0)%Q) ->
     units = consumption measurement)
    /\ (forall factor,
          conversion_factor rate_data = Some (Some factor) ->
          ~ (factor == 0)%Q ->
          units = (consumption measurement * factor)%Q)
    /\ (agile_data rate_data = [] ->
        fields_for_measurement series rate_data measurement
        = Ok [("consumption", units)])
    /\ (forall period static,
          agile_data rate_data <> [] ->
          Maya.parse (interval_end measurement) = Some period ->
          rate_getitem rate_data rate = Ok static ->
          fields_for_measurement series rate_data measurement
          = Ok [("consumption", units);
                ("agile_rate",
                 default static
                   (agile_rates rate_data !! Maya.iso8601 period));
                ("agile_cost",
                 (default static
                    (agile_rates rate_data !! Maya.iso8601 period)
                  * units)%Q)]).
Proof.
  intros Hrate.
  exists
    (match default None (conversion_factor rate_data) with
     | Some factor =>
         if truthy_num factor then (consumption measurement * factor)%Q
         else consumption measurement
     | None => consumption measurement
     end).
  repeat split.
  - intros [E | [E | (factor & E & Hzero)]]; rewrite E; cbn [from_option id];
      try reflexivity.
    unfold truthy_num. apply Qeq_bool_iff in Hzero. now rewrite Hzero.
  - intros factor E Hnonzero. rewrite E. cbn [from_option id].
    unfold truthy_num.
    destruct (Qeq_bool factor 0) eqn:Ez; [|reflexivity].
    apply Qeq_bool_iff in Ez. contradiction.
  - intros Hnone. unfold fields_for_measurement.
    rewrite Hrate, Hnone. reflexivity.
  - intros period static Hsupplied Hperiod Hstatic.
    unfold fields_for_measurement.
    rewrite Hrate. cbn [mbind result_bind].
    rewrite (truthy_list_nonempty _ Hsupplied).
    unfold maya_parse. rewrite Hperiod, Hstatic. reflexivity.
Qed.
End Enricher.

(** *** The enricher on the sample data *)

(** The sample price series has no price for the half hour that ends at
    00:45 local time, so the reading is costed at the low rate of the night
    band. *)
Lemma agile_fallback_is_static_rate_witness :
  agile_data Sample.agile_night_rates <> []
  /\ Maya.parse (Lib := Iso.lib) (interval_end Sample.night_0015)
     = Some 1685576700
  /\ Maya.iso8601 (Lib := Iso.lib) 1685576700 = "2023-05-31T23:45:00Z"
  /\ active_rate_field (lib := Iso.lib) "electricity"
       Sample.agile_night_rates Sample.night_0015 = Ok "unit_rate_low"
  /\ rate_getitem Sample.agile_night_rates "unit_rate_low" = Ok (10 # 100)%Q
  /\ exists units,
       fields_for_measurement (lib := Iso.lib) "electricity"
         Sample.agile_night_rates Sample.night_0015
       = Ok [("consumption", units); ("agile_rate", (10 # 100)%Q);
             ("agile_cost", ((10 # 100) * units)%Q)].
Proof.
  split; [discriminate |]. split; [reflexivity |]. split; [reflexivity |].
  split; [reflexivity |]. split; [reflexivity |].
  apply (agile_fallback_is_static_rate (lib := Iso.lib) "electricity"
           Sample.agile_night_rates Sample.night_0015 1685576700
           "unit_rate_low" (10 # 100)%Q);
    [discriminate | reflexivity | | reflexivity | reflexivity].
  intros point Hin.
  apply list_elem_of_singleton in Hin. rewrite Hin. discriminate.
Defined.

(** C4 as stated fails for an empty price series, the list [cmd] passes
    when the source has no price for the window: no point of the series
    matches the reading, and the reading gets no [agile_rate] and no
    [agile_cost], the [consumption] field alone. *)
Lemma empty_price_series_adds_no_agile_field :
  agile_unit_rates Sample.night_rates = Some []
  /\ (forall point, point ∈ agile_data Sample.night_rates ->
                    valid_to point <> Maya.iso8601 (Lib := Iso.lib) 1685576700)
  /\ active_rate_field (lib := Iso.lib) "electricity" Sample.night_rates
       Sample.night_0015 = Ok "unit_rate_low"
  /\ rate_getitem Sample.night_rates "unit_rate_low" = Ok (10 # 100)%Q
  /\ fields_for_measurement (lib := Iso.lib) "electricity"
       Sample.night_rates Sample.night_0015
     = Ok [("consumption", (12 # 10)%Q)]
  /\ ~ (exists units,
          fields_for_measurement (lib := Iso.lib) "electricity"
            Sample.night_rates Sample.night_0015
          = Ok [("consumption", units); ("agile_rate", (10 # 100)%Q);
                ("agile_cost", ((10 # 100) * units)%Q)]).
Proof.
  split; [reflexivity |]. split.
  { intros point Hin. destruct (not_elem_of_nil point Hin). }
  split; [reflexivity |]. split; [reflexivity |]. split; [reflexivity |].
  intros (units & Hfields).
  assert (Hcode : fields_for_measurement (lib := Iso.lib) "electricity"
                    Sample.night_rates Sample.night_0015
                  = Ok [("consumption", (12 # 10)%Q)]) by reflexivity.
  rewrite Hcode in Hfields. discriminate Hfields.
Qed.

(** A reading that ends at 00:45 local time, one hour east of UTC, is
    tagged 23:45. *)
Lemma time_of_day_tag_is_utc_clock_witness :
  tags_for_measurement (lib := Iso.lib) "electricity" Sample.night_rates
    Sample.night_0015
  = Ok [("active_rate", "unit_rate_low"); ("time_of_day", "23:45")].
Proof.
  apply (time_of_day_tag_is_utc_clock (lib := Iso.lib) "electricity"
           Sample.night_rates Sample.night_0015 1685576700 "unit_rate_low");
    reflexivity.
Defined.

(** C8 as stated fails for a zone away from UTC: the schedule's zone is
    one hour east of UTC, the reading ends at 00:45 on the clock of that
    zone, and the tag is 23:45. *)
Lemma time_of_day_tag_is_not_local :
  unit_rate_low_zone Sample.night_rates = Some (Some "Etc/GMT-1")
  /\ Maya.zone_offset (Lib := Iso.lib) "Etc/GMT-1" = Some 3600
  /\ Maya.parse (Lib := Iso.lib) (interval_end Sample.night_0015)
     = Some 1685576700
  /\ Maya.strftime_HM_in 3600 1685576700 = "00:45"
  /\ tags_for_measurement (lib := Iso.lib) "electricity" Sample.night_rates
       Sample.night_0015
     = Ok [("active_rate", "unit_rate_low"); ("time_of_day", "23:45")]
  /\ tags_for_measurement (lib := Iso.lib) "electricity" Sample.night_rates
       Sample.night_0015
     <> Ok [("active_rate", "unit_rate_low");
            ("time_of_day", Maya.strftime_HM_in 3600 1685576700)].
Proof. repeat split; try reflexivity. discriminate. Qed.

(** Ten raw units of gas with the factor 2.5 give a consumption of 25. *)
Lemma conversion_factor_applied_unless_falsy_witness :
  active_rate_field (lib := Iso.lib) "gas" Sample.gas_rates
    Sample.gas_reading = Ok "unit_rate"
  /\ exists units : Q,
       fields_for_measurement (lib := Iso.lib) "gas" Sample.gas_rates
         Sample.gas_reading = Ok [("consumption", units)]
       /\ (units == 25)%Q.
Proof.
  split; [reflexivity |].
  destruct (conversion_factor_applied_unless_falsy (lib := Iso.lib) "gas"
              Sample.gas_rates Sample.gas_reading "unit_rate" eq_refl)
    as (units & _ & Hfactor & Hfields & _).
  exists units. split; [exact (Hfields eq_refl) |].
  rewrite (Hfactor _ eq_refl); [reflexivity | discriminate].
Defined.

(** ** The paginator *)

Section PaginatorProperties.

Context {A : Type}.
Variable requests_get : Request -> Response A.
Variable query_page : string -> option string.
Variables api_key url from_date to_date : string.

Lemma raise_for_status_ok (response : Response A) :
  ~ (400 <= status_code response < 600) ->
  raise_for_status response = Ok tt.
Proof.
  intros Hcode. unfold raise_for_status.
  repeat (split_comparison; cbn [andb]); try reflexivity. lia.
Qed.

Lemma raise_for_status_error (response : Response A) :
  400 <= status_code response < 600 ->
  raise_for_status response = Raise (HTTPError (status_code response)).
Proof.
  intros Hcode. unfold raise_for_status.
  repeat (split_comparison; cbn [andb]); try reflexivity; lia.
Qed.

Lemma truthy_url (next_url : string) :
  next_url <> "" -> truthy_opt_str (Some next_url) = true.
Proof. destruct next_url; [contradiction | reflexivity]. Qed.

(** C5.  When the source serves a chain of pages linked by continuation
    tokens and ended by [next = null], the fetch asks for every page in
    turn, each with the token the page before it gave, and returns the
    records of all the pages, page after page, in the order the source
    gave them; one request per page suffices. *)
Theorem retrieve_paginated_data_concatenates pages page :
  serves requests_get query_page api_key url from_date to_date page pages ->
  forall fuel,
    (List.length pages <= fuel)%nat ->
    retrieve_paginated_data requests_get query_page fuel
      api_key url from_date to_date page
    = Some (Ok (List.concat pages)).
Proof.
  induction 1 as [page code rs Hget Hcode
                 | page code rs next_url token rest Hget Hcode Hurl Htoken
                     _ IH];
    intros [|fuel] Hfuel; cbn [List.length] in Hfuel; try lia;
    cbn [retrieve_paginated_data]; rewrite Hget;
    rewrite raise_for_status_ok by exact Hcode;
    unfold response_json; cbn [json results next getitem from_option id].
  - cbn [truthy_opt_str List.concat]. now rewrite app_nil_r.
  - rewrite (truthy_url _ Hurl), Htoken. cbn [getitem].
    rewrite IH by lia. reflexivity.
Qed.

(** C6, amended.  When a request of the chain is answered with a status
    from 400 to 599, with a body that is not JSON or that has no [next],
    or with a [next] URL without a page token, the fetch as a whole raises
    the exception of that request, however many pages were retrieved
    before it: no list of records is returned. *)
Theorem retrieve_paginated_data_fails_as_a_whole n page e :
  fails_after requests_get query_page api_key url from_date to_date
    n page e ->
  forall fuel,
    (n < fuel)%nat ->
    retrieve_paginated_data requests_get query_page fuel
      api_key url from_date to_date page
    = Some (Raise e)
    /\ forall partial,
         retrieve_paginated_data requests_get query_page fuel
           api_key url from_date to_date page
         <> Some (Ok partial).
Proof.
  intros Hfails fuel Hfuel.
  assert (Hraise :
            retrieve_paginated_data requests_get query_page fuel
              api_key url from_date to_date page = Some (Raise e)).
  { revert fuel Hfuel.
    induction Hfails as
      [page response Hget Hcode
      | page response Hget Hcode Hjson
      | page response data Hget Hcode Hjson Hnext
      | page response data next_url Hget Hcode Hjson Hnext Hurl Htoken
      | n page response data next_url token e Hget Hcode Hjson Hnext Hurl
          Htoken _ IH];
      intros [|fuel] Hfuel; try lia;
      cbn [retrieve_paginated_data]; rewrite Hget.
    - now rewrite raise_for_status_error by exact Hcode.
    - rewrite raise_for_status_ok by exact Hcode.
      unfold response_json. now rewrite Hjson.
    - rewrite raise_for_status_ok by exact Hcode.
      unfold response_json. rewrite Hjson, Hnext. reflexivity.
    - rewrite raise_for_status_ok by exact Hcode.
      unfold response_json. rewrite Hjson, Hnext.
      cbn [getitem from_option id].
      rewrite (truthy_url _ Hurl), Htoken. reflexivity.
    - rewrite raise_for_status_ok by exact Hcode.
      unfold response_json. rewrite Hjson, Hnext.
      cbn [getitem from_option id].
      rewrite (truthy_url _ Hurl), Htoken. cbn [getitem].
      rewrite IH by lia. reflexivity. }
  split; [exact Hraise |].
  intros partial. rewrite Hraise. discriminate.
Qed.

End PaginatorProperties.

(** *** The paginator on the sample sources *)

Lemma three_pages_served :
  serves Sample.three_pages Iso.query_page Sample.api_key
    Sample.consumption_url Sample.from_date Sample.to_date None
    [seq 0 100; seq 100 100; seq 200 7].
Proof.
  apply (serves_more _ _ _ _ _ _ None 200 (seq 0 100) (Sample.page_url "2")
           "2"); [reflexivity | lia | discriminate | reflexivity |].
  apply (serves_more _ _ _ _ _ _ (Some "2") 200 (seq 100 100)
           (Sample.page_url "3") "3");
    [reflexivity | lia | discriminate | reflexivity |].
  apply (serves_last _ _ _ _ _ _ (Some "3") 200 (seq 200 7));
    [reflexivity | lia].
Defined.

Lemma one_page_served :
  serves Sample.one_page Iso.query_page Sample.api_key
    Sample.consumption_url Sample.from_date Sample.to_date None [seq 0 5].
Proof.
  apply (serves_last _ _ _ _ _ _ None 200 (seq 0 5)); [reflexivity | lia].
Defined.

(** Pages of 100, 100 and 7 records give the 207 records in the order of
    the pages; a source whose first page has [next = null] gives the
    records of that page. *)
Lemma retrieve_paginated_data_concatenates_witness :
  retrieve_paginated_data Sample.three_pages Iso.query_page 3
    Sample.api_key Sample.consumption_url Sample.from_date Sample.to_date
    None
  = Some (Ok (seq 0 207))
  /\ List.length (seq 0 207) = 207%nat
  /\ retrieve_paginated_data Sample.one_page Iso.query_page 1
       Sample.api_key Sample.consumption_url Sample.from_date
       Sample.to_date None
     = Some (Ok (seq 0 5)).
Proof.
  split; [| split; [reflexivity |]].
  - exact (retrieve_paginated_data_concatenates Sample.three_pages
             Iso.query_page Sample.api_key Sample.consumption_url
             Sample.from_date Sample.to_date
             [seq 0 100; seq 100 100; seq 200 7] None three_pages_served
             3%nat (le_n 3)).
  - exact (retrieve_paginated_data_concatenates Sample.one_page
             Iso.query_page Sample.api_key Sample.consumption_url
             Sample.from_date Sample.to_date [seq 0 5] None one_page_served
             1%nat (le_n 1)).
Defined.

Lemma third_request_fails_after_two :
  fails_after Sample.third_request_fails Iso.query_page Sample.api_key
    Sample.consumption_url Sample.from_date Sample.to_date 2 None
    (HTTPError 500).
Proof.
  eapply fails_later with (token := "2");
    [reflexivity | change (~ (400 <= 200 < 600)); lia | reflexivity
    | reflexivity | discriminate | reflexivity |].
  eapply fails_later with (token := "3");
    [reflexivity | change (~ (400 <= 200 < 600)); lia | reflexivity
    | reflexivity | discriminate | reflexivity |].
  apply (fails_status _ _ _ _ _ _ (Some "3")
           {| status_code := 500; json := None |});
    [reflexivity | cbn [status_code]; lia].
Defined.

(** Two pages of 100 records are retrieved, the third request is answered
    with status 500: the fetch raises, and the 200 records are not
    returned. *)
Lemma retrieve_paginated_data_fails_as_a_whole_witness :
  retrieve_paginated_data Sample.third_request_fails Iso.query_page 3
    Sample.api_key Sample.consumption_url Sample.from_date Sample.to_date
    None
  = Some (Raise (HTTPError 500)).
Proof.
  exact (proj1 (retrieve_paginated_data_fails_as_a_whole
                  Sample.third_request_fails Iso.query_page Sample.api_key
                  Sample.consumption_url Sample.from_date Sample.to_date
                  2 None (HTTPError 500) third_request_fails_after_two
                  3%nat (le_n 3))).
Defined.

(** C6 as stated fails for a malformed body that the program accepts:
    the body of the second page has no [results], the fetch reads it as an
    empty page, follows its [next] and returns the 107 records of the
    first and the third page; nothing is raised. *)
Lemma body_without_results_is_an_empty_page :
  Sample.second_page_without_results
    (request Sample.api_key Sample.consumption_url Sample.from_date
       Sample.to_date (Some "2"))
  = {| status_code := 200;
       json := Some {| results := None;
                       next := Some (Some (Sample.page_url "3")) |} |}
  /\ retrieve_paginated_data Sample.second_page_without_results
       Iso.query_page 3 Sample.api_key Sample.consumption_url
       Sample.from_date Sample.to_date None
     = Some (Ok (seq 0 100 ++ seq 200 7)%list)
  /\ List.length (seq 0 100 ++ seq 200 7)%list = 107%nat
  /\ ~ (exists e,
          retrieve_paginated_data Sample.second_page_without_results
            Iso.query_page 3 Sample.api_key Sample.consumption_url
            Sample.from_date Sample.to_date None
          = Some (Raise e)).
Proof.
  split; [reflexivity |]. split; [reflexivity |]. split; [reflexivity |].
  intros (e & Hraise).
  assert (Hcode : retrieve_paginated_data Sample.second_page_without_results
                    Iso.query_page 3 Sample.api_key Sample.consumption_url
                    Sample.from_date Sample.to_date None
                  = Some (Ok (seq 0 100 ++ seq 200 7)%list)) by reflexivity.
  rewrite Hcode in Hraise. discriminate Hraise.
Qed.

(** ** The series emitter *)

(** What every point written by [store_series] looks like, whatever the
    series and the tags of the entry it is written for. *)
Lemma points_of_shape (measurement : Enriched) :
  Forall (fun point => p_measurement point = "electricity"
                       /\ p_tags point = [])
         (points_of measurement).
Proof.
  unfold points_of. apply List.Forall_map.
  apply List.Forall_forall. intros field _. split; reflexivity.
Qed.

(** C9, as the program has it.  Every point that [store_series] writes is
    a point of the series named electricity and carries no tag, whatever
    series the measurements were built for and whatever tags they have: the
    name and the tags of the entries of [measurements] are not written. *)
Theorem store_series_writes_untagged_electricity
    {lib : Maya.Lib} series rate_data metrics written :
  store_series series rate_data metrics = Ok written ->
  Forall (fun call =>
            w_bucket call = "energy"
            /\ Forall (fun point => p_measurement point = "electricity"
                                    /\ p_tags point = [])
                      (w_record call))
         written.
Proof.
  unfold store_series.
  destruct (measurements series rate_data metrics) as [ms | e];
    cbn [mbind result_bind]; [| discriminate].
  intros [= <-].
  apply List.Forall_map. apply List.Forall_concat. apply List.Forall_map.
  apply List.Forall_forall. intros measurement _.
  eapply List.Forall_impl; [| apply points_of_shape].
  intros point Hpoint. split; [reflexivity |].
  constructor; [exact Hpoint | constructor].
Qed.

(** The gas reading of the samples is enriched as a measurement of the
    gas series with its two tags, and written as an untagged point of the
    electricity series. *)
Lemma store_series_writes_untagged_electricity_witness :
  measurements (lib := Iso.lib) "gas" Sample.gas_rates [Sample.gas_reading]
  = Ok [{| e_measurement := "gas";
           e_tags := [("active_rate", "unit_rate"); ("time_of_day", "00:30")];
           e_time := "2023-06-01T00:30:00Z";
           e_fields := [("consumption", (10 * (1 * 9 / (36 # 10)))%Q)] |}]
  /\ store_series (lib := Iso.lib) "gas" Sample.gas_rates [Sample.gas_reading]
     = Ok [{| w_bucket := "energy";
              w_record :=
                [{| p_measurement := "electricity";
                    p_tags := [];
                    p_fields := [("consumption", (10 * (1 * 9 / (36 # 10)))%Q)];
                    p_time := Some "2023-06-01T00:30:00Z" |}] |}]
  /\ Forall (fun call =>
               w_bucket call = "energy"
               /\ Forall (fun point => p_measurement point = "electricity"
                                       /\ p_tags point = [])
                         (w_record call))
       [{| w_bucket := "energy";
           w_record :=
             [{| p_measurement := "electricity";
                 p_tags := [];
                 p_fields := [("consumption", (10 * (1 * 9 / (36 # 10)))%Q)];
                 p_time := Some "2023-06-01T00:30:00Z" |}] |}].
Proof.
  split; [reflexivity | split; [reflexivity |]].
  apply (store_series_writes_untagged_electricity (lib := Iso.lib) "gas"
           Sample.gas_rates [Sample.gas_reading]).
  reflexivity.
Defined.

(** C7, as the program has it.  [store_agilerates] writes the pending
    batch when it holds more than 48 points: 49 rates are written by two
    calls, the first of 49 points and the second of none. *)
Theorem store_agilerates_49_rates (agile_data : list AgileRate) :
  List.length agile_data = 49%nat ->
  map (fun call => List.length (w_record call)) (store_agilerates agile_data)
  = [49%nat; 0%nat].
Proof.
  intros Hlen.
  do 49 (destruct agile_data as [| ? agile_data]; [discriminate Hlen |]).
  destruct agile_data; [reflexivity | discriminate Hlen].
Qed.

Lemma store_agilerates_49_rates_witness :
  List.length Sample.prices_49 = 49%nat
  /\ map (fun call => List.length (w_record call))
       (store_agilerates Sample.prices_49)
     = [49%nat; 0%nat].
Proof.
  split; [reflexivity |].
  apply store_agilerates_49_rates. reflexivity.
Defined.

(** ** More on the paginator *)

Section PaginatorChainProperties.

Context {A : Type}.
Variable requests_get : Request -> Response A.
Variable query_page : string -> option string.
Variables api_key url from_date to_date : string.

(** One call of [retrieve_paginated_data], by the answer it gets. *)
Lemma retrieve_step fuel page rs next_url :
  answers requests_get api_key url from_date to_date page rs next_url ->
  retrieve_paginated_data requests_get query_page (S fuel)
    api_key url from_date to_date page
  = if truthy_opt_str next_url then
      match getitem "page" (query_page (default "" next_url)) with
      | Raise e => Some (Raise e)
      | Ok next_page =>
          match retrieve_paginated_data requests_get query_page fuel
                  api_key url from_date to_date (Some next_page) with
          | None => None
          | Some (Raise e) => Some (Raise e)
          | Some (Ok more) => Some (Ok (rs ++ more)%list)
          end
      end
    else Some (Ok rs).
Proof.
  intros [Hcode (data & Hjson & Hrs & Hnext)].
  cbn [retrieve_paginated_data].
  rewrite raise_for_status_ok by exact Hcode.
  unfold response_json. rewrite Hjson, Hnext, Hrs. reflexivity.
Qed.

(** What one call does when the request is not answered with a page. *)
Lemma retrieve_step_cases fuel page :
  (exists rs next_url,
      answers requests_get api_key url from_date to_date page rs next_url)
  \/ exists e,
       retrieve_paginated_data requests_get query_page (S fuel)
         api_key url from_date to_date page = Some (Raise e)
       /\ ((exists code, e = HTTPError code /\ 400 <= code < 600)
           \/ e = JSONDecodeError \/ e = KeyError "next").
Proof.
  set (response := requests_get (request api_key url from_date to_date page)).
  destruct (decide (400 <= status_code response < 600)) as [Hcode | Hcode].
  { right. exists (HTTPError (status_code response)). split.
    - cbn [retrieve_paginated_data]. fold response.
      now rewrite raise_for_status_error by exact Hcode.
    - left. eauto. }
  destruct (json response) as [data |] eqn:Hjson.
  2:{ right. exists JSONDecodeError. split; [| auto].
      cbn [retrieve_paginated_data]. fold response.
      rewrite raise_for_status_ok by exact Hcode.
      unfold response_json. now rewrite Hjson. }
  destruct (next data) as [next_url |] eqn:Hnext.
  2:{ right. exists (KeyError "next"). split; [| auto].
      cbn [retrieve_paginated_data]. fold response.
      rewrite raise_for_status_ok by exact Hcode.
      unfold response_json. now rewrite Hjson, Hnext. }
  left. exists (default [] (results data)), next_url.
  split; [exact Hcode |]. exists data. auto.
Qed.

(** X1.  The fetch returns a list exactly when the source answers a chain
    of requests, each asked with the token of the page before, the last
    with a [next] that is [null] or empty; the list is then the records of
    the pages in the order of the chain, a page without [results] giving
    none.  Nothing else is ever returned. *)
Theorem retrieve_paginated_data_returns_iff fuel page rs :
  retrieve_paginated_data requests_get query_page fuel
    api_key url from_date to_date page = Some (Ok rs)
  <-> exists pages,
        fetched requests_get query_page api_key url from_date to_date
          page pages
        /\ (List.length pages <= fuel)%nat
        /\ rs = List.concat pages.
Proof.
  split.
  - revert page rs.
    induction fuel as [| fuel IH]; intros page rs Hret; [discriminate |].
    destruct (retrieve_step_cases fuel page)
      as [(rs0 & next_url & Hans) | (e & He & _)];
      [| rewrite He in Hret; discriminate].
    rewrite (retrieve_step _ _ _ _ Hans) in Hret.
    destruct (truthy_opt_str next_url) eqn:Htruthy.
    + destruct next_url as [next_url |]; [| discriminate].
      cbn [from_option id truthy_opt_str] in *.
      destruct (query_page next_url) as [token |] eqn:Htoken;
        cbn [getitem] in Hret; [| discriminate].
      destruct (retrieve_paginated_data requests_get query_page fuel
                  api_key url from_date to_date (Some token))
        as [[more | e] |] eqn:Hrec; try discriminate.
      injection Hret as <-.
      destruct (IH _ _ Hrec) as (rest & Hrest & Hlen & ->).
      exists (rs0 :: rest). split; [| split].
      * eapply fetched_more; eassumption.
      * cbn [List.length]. lia.
      * reflexivity.
    + injection Hret as <-. exists [rs0]. split; [| split].
      * eapply fetched_last; eassumption.
      * cbn [List.length]. lia.
      * cbn [List.concat]. now rewrite app_nil_r.
  - intros (pages & Hpages & Hlen & ->). revert fuel Hlen.
    induction Hpages as [page rs0 next_url Hans Hstop
                        | page rs0 next_url token rest Hans Hgo Htoken _ IH];
      intros [| fuel] Hlen; cbn [List.length] in Hlen; try lia;
      rewrite (retrieve_step _ _ _ _ Hans).
    + rewrite Hstop. cbn [List.concat]. now rewrite app_nil_r.
    + cbn [truthy_opt_str from_option id]. rewrite Hgo, Htoken.
      cbn [getitem]. rewrite IH by lia. reflexivity.
Qed.


(** X3.  When the source answers every request with a page and a
    continuation token, the fetch never returns, whatever the number of
    requests it is allowed: nothing stops it but the end of the chain or a
    failing request. *)
Theorem retrieve_paginated_data_endless fuel page :
  endless requests_get query_page api_key url from_date to_date ->
  retrieve_paginated_data requests_get query_page fuel
    api_key url from_date to_date page = None.
Proof.
  intros Hendless. revert page.
  induction fuel as [| fuel IH]; intros page; [reflexivity |].
  destruct (Hendless page) as (rs & next_url & token & Hans & Hgo & Htoken).
  rewrite (retrieve_step _ _ _ _ Hans).
  cbn [truthy_opt_str from_option id]. rewrite Hgo, Htoken. cbn [getitem].
  now rewrite IH.
Qed.


End PaginatorChainProperties.

(** *** The paginator on further sources *)


Lemma looping_is_endless :
  endless Cases.looping Iso.query_page Sample.api_key
    Sample.consumption_url Sample.from_date Sample.to_date.
Proof.
  intros page. exists (seq 0 3), (Sample.page_url "2"), "2".
  split; [| split; reflexivity].
  split; [change (~ (400 <= 200 < 600)); lia |].
  eexists. split; [reflexivity |]. split; reflexivity.
Defined.

(** A thousand requests do not end the fetch from the looping source. *)
Lemma retrieve_paginated_data_endless_witness :
  retrieve_paginated_data Cases.looping Iso.query_page 1000
    Sample.api_key Sample.consumption_url Sample.from_date Sample.to_date
    None = None.
Proof.
  exact (retrieve_paginated_data_endless Cases.looping Iso.query_page
           Sample.api_key Sample.consumption_url Sample.from_date
           Sample.to_date 1000 None looping_is_endless).
Defined.

(** ** More on the resolver *)

(** Follows the successful steps of a computation [H : m ≫= .. = Ok _]. *)
Ltac follow_binds H :=
  repeat match type of H with
         | (?m ≫= _) = _ =>
             destruct m eqn:?; cbn [mbind result_bind] in H;
             [| discriminate H]
         | (if negb ?b then _ else _) = _ =>
             destruct b; cbn [negb] in H
         end.

Section ResolverProperties.

Context {lib : Maya.Lib}.

(** X4.  The resolver names one of three rates: [unit_rate] for the gas
    series and for no other, [unit_rate_high] or [unit_rate_low] for every
    other series. *)
Theorem active_rate_field_names series rate_data measurement rate :
  active_rate_field series rate_data measurement = Ok rate ->
  (series = "gas" /\ rate = "unit_rate")
  \/ (series <> "gas"
      /\ (rate = "unit_rate_high" \/ rate = "unit_rate_low")).
Proof.
  unfold active_rate_field. intros H.
  destruct (String.eqb_spec series "gas") as [-> | Hs].
  - left. injection H as <-. auto.
  - right. split; [exact Hs |].
    follow_binds H; injection H as <-; auto.
    destruct (_ || _); auto.
Qed.

(** X5.  For a banded schedule, two instants a whole number of days apart
    resolve to the same rate. *)
Theorem active_rate_field_daily series rate_data off ls le m1 m2 t k :
  banded series rate_data off ls le ->
  Maya.parse (interval_start m1) = Some t ->
  Maya.parse (interval_start m2) = Some (t + 86400 * k) ->
  active_rate_field series rate_data m1
  = active_rate_field series rate_data m2.
Proof.
  intros Hb H1 H2.
  rewrite (active_rate_field_banded _ _ _ _ _ _ _ Hb H1).
  rewrite (active_rate_field_banded _ _ _ _ _ _ _ Hb H2).
  unfold Maya.time_of_day, Maya.day.
  replace (t + 86400 * k + off) with (t + off + k * 86400) by lia.
  now rewrite Z.mod_add by lia.
Qed.

(** X6.  For a band across midnight, an instant at 23:59:59 local time
    resolves to the high rate, although the band has started: the part of
    the band before midnight ends at 23:59:59 and leaves that second
    out. *)
Theorem midnight_band_last_second_is_high
    series rate_data off ls le measurement t :
  banded series rate_data off ls le ->
  ls > le ->
  Maya.parse (interval_start measurement) = Some t ->
  Maya.time_of_day off t = 86399 ->
  active_rate_field series rate_data measurement = Ok "unit_rate_high".
Proof.
  intros Hb Hcross Ht Hlast.
  rewrite (active_rate_field_banded _ _ _ _ _ _ _ Hb Ht), Hlast.
  destruct Hb as [_ _ (ts & _ & Hls) _].
  apply parse_clock_range in Hls.
  unfold in_low_band.
  repeat (split_comparison; cbn [andb orb]); try lia; reflexivity.
Qed.

End ResolverProperties.

(** *** The resolver on further readings *)

Lemma active_rate_field_names_witness :
  active_rate_field (lib := Iso.lib) "electricity" Sample.night_rates
    Sample.night_0015 = Ok "unit_rate_low"
  /\ (("electricity" = "gas" /\ "unit_rate_low" = "unit_rate")
      \/ ("electricity" <> "gas"
          /\ ("unit_rate_low" = "unit_rate_high"
              \/ "unit_rate_low" = "unit_rate_low"))).
Proof.
  split; [reflexivity |].
  apply (active_rate_field_names (lib := Iso.lib) "electricity"
           Sample.night_rates Sample.night_0015 "unit_rate_low").
  reflexivity.
Defined.

(** 00:15 on the first and on the second of June. *)
Lemma active_rate_field_daily_witness :
  Maya.parse (Lib := Iso.lib) (interval_start Cases.next_night_0015)
  = Some (1685574900 + 86400 * 1)
  /\ active_rate_field (lib := Iso.lib) "electricity" Sample.night_rates
       Sample.night_0015
     = active_rate_field (lib := Iso.lib) "electricity" Sample.night_rates
         Cases.next_night_0015.
Proof.
  split; [reflexivity |].
  apply (active_rate_field_daily (lib := Iso.lib) "electricity"
           Sample.night_rates 3600 84600 19800 Sample.night_0015
           Cases.next_night_0015 1685574900 1 night_band);
    reflexivity.
Defined.

(** 23:59:59 lies after 23:30, the start of the night band. *)
Lemma midnight_band_last_second_is_high_witness :
  Maya.parse (Lib := Iso.lib) (interval_start Cases.night_235959)
  = Some 1685660399
  /\ Maya.time_of_day 3600 1685660399 = 86399
  /\ 84600 <= Maya.time_of_day 3600 1685660399
  /\ active_rate_field (lib := Iso.lib) "electricity" Sample.night_rates
       Cases.night_235959 = Ok "unit_rate_high".
Proof.
  split; [reflexivity |]. split; [reflexivity |]. split; [discriminate |].
  apply (midnight_band_last_second_is_high (lib := Iso.lib) "electricity"
           Sample.night_rates 3600 84600 19800 Cases.night_235959
           1685660399 night_band);
    reflexivity.
Defined.

(** ** More on the enricher *)

Section EnricherProperties.

Context {lib : Maya.Lib}.

(** Points with other keys leave the price under [key] as it was. *)
Lemma agile_fold_lookup_other (points : list AgileRate) key :
  (forall point, point ∈ points -> valid_to point <> key) ->
  forall acc : gmap string Q,
    foldl (fun acc point => <[valid_to point := value_inc_vat point]> acc)
          acc points !! key = acc !! key.
Proof.
  induction points as [| point points IH]; intros Hkeys acc; [reflexivity |].
  cbn [foldl]. rewrite IH.
  - apply lookup_insert_ne. apply Hkeys. apply list_elem_of_here.
  - intros q Hq. apply Hkeys. now apply list_elem_of_further.
Qed.

(** The price found under a key is the price of the last point that
    carries the key. *)
Lemma agile_rates_lookup_last rate_data before point after :
  agile_data rate_data = (before ++ point :: after)%list ->
  (forall q, q ∈ after -> valid_to q <> valid_to point) ->
  agile_rates rate_data !! valid_to point = Some (value_inc_vat point).
Proof.
  intros Hdata Hafter. unfold agile_rates. rewrite Hdata.
  rewrite foldl_app. cbn [foldl].
  rewrite agile_fold_lookup_other by exact Hafter.
  apply lookup_insert_eq.
Qed.

(** The fields of a reading once its band is resolved. *)
Lemma fields_for_measurement_resolved series rate_data measurement rate :
  active_rate_field series rate_data measurement = Ok rate ->
  exists units,
    fields_for_measurement series rate_data measurement
    = if truthy_list (agile_data rate_data) then
        period ← maya_parse (interval_end measurement);
        fallback ← rate_getitem rate_data rate;
        Ok [("consumption", units);
            ("agile_rate",
             default fallback
               (agile_rates rate_data !! Maya.iso8601 period));
            ("agile_cost",
             (default fallback
                (agile_rates rate_data !! Maya.iso8601 period)
              * units)%Q)]
      else Ok [("consumption", units)].
Proof.
  intros Hrate. unfold fields_for_measurement. rewrite Hrate.
  eexists. cbn [mbind result_bind]. reflexivity.
Qed.

(** X7.  When several points of the price series carry the [valid_to] that
    matches the reading, the price of the last of them is the
    [agile_rate], and the cost is computed from it. *)
Theorem agile_rate_is_last_matching_price
    series rate_data measurement period rate static before point after :
  agile_data rate_data = (before ++ point :: after)%list ->
  (forall q, q ∈ after -> valid_to q <> valid_to point) ->
  Maya.parse (interval_end measurement) = Some period ->
  valid_to point = Maya.iso8601 period ->
  active_rate_field series rate_data measurement = Ok rate ->
  rate_getitem rate_data rate = Ok static ->
  exists units,
    fields_for_measurement series rate_data measurement
    = Ok [("consumption", units); ("agile_rate", value_inc_vat point);
          ("agile_cost", (value_inc_vat point * units)%Q)].
Proof.
  intros Hdata Hafter Hperiod Hkey Hrate Hstatic.
  destruct (fields_for_measurement_resolved _ _ _ _ Hrate) as (units & ->).
  exists units.
  rewrite Hdata at 1. destruct before; cbn [app truthy_list];
    unfold maya_parse; rewrite Hperiod, Hstatic; cbn [mbind result_bind];
    rewrite <- Hkey, (agile_rates_lookup_last _ _ _ _ Hdata Hafter);
    reflexivity.
Qed.

(** X8.  With a price series, the static rate of the resolved band is
    looked up before the price: when the rate data lack it, the reading is
    not enriched and the key error is raised, whether or not the series has
    a price for the reading. *)
Theorem missing_static_rate_raises
    series rate_data measurement period rate e :
  agile_data rate_data <> [] ->
  Maya.parse (interval_end measurement) = Some period ->
  active_rate_field series rate_data measurement = Ok rate ->
  rate_getitem rate_data rate = Raise e ->
  fields_for_measurement series rate_data measurement = Raise e
  /\ enrich series rate_data measurement = Raise e.
Proof.
  intros Hsupplied Hperiod Hrate Hstatic.
  assert (Hfields :
            fields_for_measurement series rate_data measurement = Raise e).
  { destruct (fields_for_measurement_resolved _ _ _ _ Hrate) as (units & ->).
    rewrite (truthy_list_nonempty _ Hsupplied).
    unfold maya_parse. now rewrite Hperiod, Hstatic. }
  split; [exact Hfields |].
  unfold enrich, tags_for_measurement, maya_parse.
  rewrite Hperiod, Hrate. cbn [mbind result_bind]. now rewrite Hfields.
Qed.

(** X9.  The fields of an enriched reading are [consumption] alone without
    a price series, and [consumption], [agile_rate], [agile_cost], in this
    order, with one. *)
Theorem fields_for_measurement_keys series rate_data measurement fields :
  fields_for_measurement series rate_data measurement = Ok fields ->
  map fst fields
  = if truthy_list (agile_data rate_data)
    then ["consumption"; "agile_rate"; "agile_cost"]
    else ["consumption"].
Proof.
  intros Hfields.
  destruct (active_rate_field series rate_data measurement) as [rate | e]
    eqn:Hrate.
  - destruct (fields_for_measurement_resolved _ _ _ _ Hrate)
      as (units & Heq).
    rewrite Heq in Hfields.
    destruct (truthy_list (agile_data rate_data)).
    + destruct (maya_parse (interval_end measurement)); [| discriminate].
      destruct (rate_getitem rate_data rate); [| discriminate].
      cbn [mbind result_bind] in Hfields. now injection Hfields as <-.
    + now injection Hfields as <-.
  - unfold fields_for_measurement in Hfields. rewrite Hrate in Hfields.
    discriminate.
Qed.

(** An enriched reading keeps the time of the reading and has as many
    fields as the price series decides. *)
Lemma enrich_shape series rate_data measurement x :
  enrich series rate_data measurement = Ok x ->
  e_time x = interval_end measurement
  /\ List.length (e_fields x)
     = if truthy_list (agile_data rate_data) then 3%nat else 1%nat.
Proof.
  unfold enrich, tags_for_measurement. intros Hx.
  destruct (maya_parse (interval_end measurement)) as [period | e] eqn:Hp;
    [| discriminate].
  cbn [mbind result_bind] in Hx.
  destruct (active_rate_field series rate_data measurement) as [rate | e]
    eqn:Hrate; [| discriminate].
  cbn [mbind result_bind] in Hx.
  destruct (fields_for_measurement_resolved _ _ _ _ Hrate) as (units & Heq).
  rewrite Heq, Hp in Hx.
  destruct (truthy_list (agile_data rate_data)).
  - cbn [mbind result_bind] in Hx.
    destruct (rate_getitem rate_data rate); [| discriminate].
    cbn [mbind result_bind] in Hx. injection Hx as <-. auto.
  - cbn [mbind result_bind] in Hx. injection Hx as <-. auto.
Qed.

Lemma measurements_cons series rate_data measurement metrics :
  measurements series rate_data (measurement :: metrics)
  = x ← enrich series rate_data measurement;
    xs ← measurements series rate_data metrics;
    Ok (x :: xs).
Proof. reflexivity. Qed.

(** X10.  When a reading cannot be enriched, [store_series] raises the
    exception of the first such reading and writes nothing, not even the
    points of the readings before it. *)
Theorem store_series_first_failure series rate_data good bad rest e :
  Forall (fun m => exists x, enrich series rate_data m = Ok x) good ->
  enrich series rate_data bad = Raise e ->
  store_series series rate_data (good ++ bad :: rest)%list = Raise e.
Proof.
  intros Hgood Hbad.
  assert (Hms : measurements series rate_data (good ++ bad :: rest)%list
                = Raise e).
  { induction Hgood as [| m good (x & Hx) _ IH]; cbn [app];
      rewrite measurements_cons.
    - now rewrite Hbad.
    - rewrite Hx, IH. reflexivity. }
  unfold store_series. now rewrite Hms.
Qed.

(** X11.  [store_series] makes one write call per field of each reading,
    in the order of the readings: one call per reading without a price
    series and three with one, each of a single point with a single field,
    at the [interval_end] of its reading. *)
Theorem store_series_one_write_per_field series rate_data metrics written :
  store_series series rate_data metrics = Ok written ->
  Forall (fun call => exists point field,
                        w_record call = [point] /\ p_fields point = [field])
         written
  /\ map (fun call => map p_time (w_record call)) written
     = flat_map (fun m => repeat [Some (interval_end m)]
                            (if truthy_list (agile_data rate_data)
                             then 3 else 1)%nat)
                metrics
  /\ List.length written
     = ((if truthy_list (agile_data rate_data) then 3 else 1)
        * List.length metrics)%nat.
Proof.
  unfold store_series.
  destruct (measurements series rate_data metrics) as [ms | e] eqn:Hms;
    cbn [mbind result_bind]; [| discriminate].
  intros [= <-].
  revert ms Hms.
  induction metrics as [| m metrics IH]; intros ms Hms.
  - injection Hms as <-. cbn. auto.
  - rewrite measurements_cons in Hms.
    destruct (enrich series rate_data m) as [x | e] eqn:Hx; [| discriminate].
    cbn [mbind result_bind] in Hms.
    destruct (measurements series rate_data metrics) as [xs | e] eqn:Hxs;
      [| discriminate].
    cbn [mbind result_bind] in Hms. injection Hms as <-.
    destruct (IH xs eq_refl) as (IHshape & IHtimes & IHlen).
    destruct (enrich_shape _ _ _ _ Hx) as (Htime & Hcount).
    cbn [map List.concat flat_map List.length].
    rewrite map_app, map_app, length_app, IHtimes, IHlen.
    unfold points_of. rewrite Htime.
    destruct (truthy_list (agile_data rate_data));
      destruct (e_fields x) as [| f1 [| f2 [| f3 [| f4 fs]]]];
      try discriminate Hcount;
      (split; [| split; [reflexivity | cbn [map List.length]; lia]]);
      apply Forall_app; (split; [| exact IHshape]);
      repeat constructor; eauto.
Qed.

(** A price is held under [key] after the points are read exactly when it
    was held before or one of the points carries the key. *)
Lemma agile_fold_lookup_is_Some (points : list AgileRate) key :
  forall acc : gmap string Q,
    is_Some (foldl (fun acc point =>
                      <[valid_to point := value_inc_vat point]> acc)
                   acc points !! key)
    <-> is_Some (acc !! key)
        \/ exists point, point ∈ points /\ valid_to point = key.
Proof.
  induction points as [| point points IH]; intros acc; cbn [foldl].
  - split; [auto |]. intros [H | (q & Hq & _)]; [exact H |].
    destruct (not_elem_of_nil q Hq).
  - rewrite IH, lookup_insert_is_Some. split.
    + intros [[Hkey | [_ Hacc]] | (q & Hq & Hkey)].
      * right. exists point. split; [apply list_elem_of_here | exact Hkey].
      * left. exact Hacc.
      * right. exists q. split; [now apply list_elem_of_further | exact Hkey].
    + intros [Hacc | (q & Hq & Hkey)].
      * left. destruct (decide (valid_to point = key)); auto.
      * apply elem_of_cons in Hq as [-> | Hq]; [auto |].
        right. exists q. auto.
Qed.

(** X17.  The dictionary of Agile prices has a price under a key exactly
    when a point of the series has that key as its [valid_to]: the keys
    are the texts of the source, compared as they are. *)
Theorem agile_rates_keys rate_data key :
  is_Some (agile_rates rate_data !! key)
  <-> exists point, point ∈ agile_data rate_data /\ valid_to point = key.
Proof.
  unfold agile_rates. rewrite agile_fold_lookup_is_Some. split.
  - intros [H | H]; [| exact H].
    rewrite lookup_empty in H. destruct (is_Some_None H).
  - auto.
Qed.

(** X16.  For the gas series, and for a series whose rate data name no
    zone for the low band, a reading is enriched from its [interval_end]
    and its consumption alone: its [interval_start] is not read, so that
    one that is no timestamp goes unnoticed. *)
Theorem enrich_ignores_interval_start series rate_data m1 m2 :
  series = "gas"
  \/ (exists zone, unit_rate_low_zone rate_data = Some zone
                   /\ truthy_opt_str zone = false) ->
  interval_end m1 = interval_end m2 ->
  consumption m1 = consumption m2 ->
  enrich series rate_data m1 = enrich series rate_data m2.
Proof.
  intros Hflat Hend Hunits.
  assert (Hrate : active_rate_field series rate_data m1
                  = active_rate_field series rate_data m2).
  { unfold active_rate_field.
    destruct Hflat as [-> | (zone & Hzone & Hfalse)]; [reflexivity |].
    destruct (String.eqb series "gas"); [reflexivity |].
    rewrite Hzone. cbn [getitem mbind result_bind]. now rewrite Hfalse. }
  unfold enrich, tags_for_measurement, fields_for_measurement.
  now rewrite Hrate, Hend, Hunits.
Qed.

End EnricherProperties.

(** *** The enricher on further data *)

(** The reading that ends at 23:45 UTC is priced at 25, the later of the
    two prices of its half hour. *)
Lemma agile_rate_is_last_matching_price_witness :
  agile_data Cases.twice_priced_rates
  = ([Cases.first_price; Sample.price] ++ Cases.last_price :: [])%list
  /\ Maya.iso8601 (Lib := Iso.lib) 1685576700 = valid_to Cases.last_price
  /\ exists units,
       fields_for_measurement (lib := Iso.lib) "electricity"
         Cases.twice_priced_rates Sample.night_0015
       = Ok [("consumption", units); ("agile_rate", 25%Q);
             ("agile_cost", (25 * units)%Q)].
Proof.
  split; [reflexivity |]. split; [reflexivity |].
  apply (agile_rate_is_last_matching_price (lib := Iso.lib) "electricity"
           Cases.twice_priced_rates Sample.night_0015 1685576700
           "unit_rate_low" (10 # 100)%Q
           [Cases.first_price; Sample.price] Cases.last_price []);
    try reflexivity.
  intros q Hq. destruct (not_elem_of_nil q Hq).
Defined.

(** The series has a price for the reading, the rate data have no low
    rate: the reading is not enriched. *)
Lemma missing_static_rate_raises_witness :
  agile_rates Cases.no_low_rate !! Maya.iso8601 (Lib := Iso.lib) 1685576700
  = Some 25%Q
  /\ rate_getitem Cases.no_low_rate "unit_rate_low"
     = Raise (KeyError "unit_rate_low")
  /\ fields_for_measurement (lib := Iso.lib) "electricity" Cases.no_low_rate
       Sample.night_0015 = Raise (KeyError "unit_rate_low")
  /\ enrich (lib := Iso.lib) "electricity" Cases.no_low_rate
       Sample.night_0015 = Raise (KeyError "unit_rate_low").
Proof.
  split; [reflexivity |]. split; [reflexivity |].
  apply (missing_static_rate_raises (lib := Iso.lib) "electricity"
           Cases.no_low_rate Sample.night_0015 1685576700 "unit_rate_low"
           (KeyError "unit_rate_low"));
    [discriminate | reflexivity | reflexivity | reflexivity].
Defined.

Lemma fields_for_measurement_keys_witness :
  exists fields,
    fields_for_measurement (lib := Iso.lib) "electricity"
      Sample.agile_night_rates Sample.night_0015 = Ok fields
    /\ map fst fields = ["consumption"; "agile_rate"; "agile_cost"].
Proof.
  eexists. split; [reflexivity |].
  apply (fields_for_measurement_keys (lib := Iso.lib) "electricity"
           Sample.agile_night_rates Sample.night_0015).
  reflexivity.
Defined.

(** The second of three readings is malformed: nothing is written. *)
Lemma store_series_first_failure_witness :
  enrich (lib := Iso.lib) "electricity" Sample.night_rates Cases.malformed
  = Raise (ParserError "soon")
  /\ store_series (lib := Iso.lib) "electricity" Sample.night_rates
       ([Sample.night_0015] ++ Cases.malformed :: [Sample.night_0530])%list
     = Raise (ParserError "soon").
Proof.
  split; [reflexivity |].
  apply (store_series_first_failure (lib := Iso.lib) "electricity"
           Sample.night_rates [Sample.night_0015] Cases.malformed
           [Sample.night_0530] (ParserError "soon"));
    [| reflexivity].
  constructor; [| constructor]. eexists. reflexivity.
Defined.

(** Two readings with a price series are written by six calls. *)
Lemma store_series_one_write_per_field_witness :
  exists written,
    store_series (lib := Iso.lib) "electricity" Sample.agile_night_rates
      [Sample.night_0015; Sample.night_0530] = Ok written
    /\ List.length written = 6%nat.
Proof.
  eexists. split; [reflexivity |].
  apply (store_series_one_write_per_field (lib := Iso.lib) "electricity"
           Sample.agile_night_rates [Sample.night_0015; Sample.night_0530]).
  reflexivity.
Defined.

(** ** More on the emitter of the Agile rates *)

(** The loop of [store_agilerates] neither drops nor repeats a point. *)
Lemma agile_loop_keeps agile_data points written :
  (List.concat (map w_record (agile_loop agile_data points written).2)
   ++ (agile_loop agile_data points written).1)%list
  = (List.concat (map w_record written) ++ points
     ++ map agile_point agile_data)%list.
Proof.
  revert points written.
  induction agile_data as [| agile_rate rest IH]; intros points written;
    cbn [agile_loop map].
  - cbn [fst snd]. now rewrite app_nil_r.
  - destruct (Z.of_nat (List.length (points ++ [agile_point agile_rate]))
              >? 48); rewrite IH.
    + rewrite map_app, concat_app. cbn [map List.concat w_record].
      rewrite app_nil_r. cbn [app]. now rewrite <- !app_assoc.
    + now rewrite <- !app_assoc.
Qed.

(** The loop writes batches of 49 points and keeps fewer than 49. *)
Lemma agile_loop_batches agile_data points written :
  (List.length points <= 48)%nat ->
  Forall (fun call => w_bucket call = "energy"
                      /\ List.length (w_record call) = 49%nat) written ->
  Forall (fun call => w_bucket call = "energy"
                      /\ List.length (w_record call) = 49%nat)
         (agile_loop agile_data points written).2
  /\ (List.length (agile_loop agile_data points written).1 <= 48)%nat.
Proof.
  revert points written.
  induction agile_data as [| agile_rate rest IH];
    intros points written Hpoints Hwritten; cbn [agile_loop].
  - auto.
  - assert (Hlen : List.length (points ++ [agile_point agile_rate])
                   = S (List.length points))
      by (rewrite length_app; cbn [List.length]; lia).
    rewrite Hlen.
    destruct (Z.gtb_spec (Z.of_nat (S (List.length points))) 48).
    + apply IH; [cbn [List.length]; lia |].
      apply Forall_app. split; [exact Hwritten |].
      constructor; [| constructor]. cbn [w_bucket w_record].
      split; [reflexivity |]. lia.
    + apply IH; [lia | exact Hwritten].
Qed.

Lemma length_concat_batches (written : list WriteCall) :
  Forall (fun call => w_bucket call = "energy"
                      /\ List.length (w_record call) = 49%nat) written ->
  List.length (List.concat (map w_record written))
  = (49 * List.length written)%nat.
Proof.
  induction 1 as [| call written [_ Hcall] _ IH]; [reflexivity |].
  cbn [map List.concat List.length]. rewrite length_app, Hcall, IH. lia.
Qed.

(** X12.  The write calls of [store_agilerates], taken together, carry
    one point per rate, in the order of the rates: no rate is dropped,
    repeated or moved. *)
Theorem store_agilerates_writes_every_rate_once agile_data :
  List.concat (map w_record (store_agilerates agile_data))
  = map agile_point agile_data.
Proof.
  unfold store_agilerates.
  pose proof (agile_loop_keeps agile_data [] []) as Hkeep.
  destruct (agile_loop agile_data [] []) as [points written].
  cbn [fst snd map List.concat app] in Hkeep.
  rewrite map_app, concat_app. cbn [map List.concat w_record].
  now rewrite app_nil_r.
Qed.

(** X13.  For [n] rates [store_agilerates] makes [n / 49 + 1] write calls
    to the bucket [energy]: [n / 49] calls of 49 points each, then one
    call of the [n mod 49] points that remain, also when none remains. *)
Theorem store_agilerates_batches agile_data :
  exists full last,
    store_agilerates agile_data = (full ++ [last])%list
    /\ Forall (fun call => w_bucket call = "energy"
                           /\ List.length (w_record call) = 49%nat) full
    /\ w_bucket last = "energy"
    /\ List.length full = (List.length agile_data / 49)%nat
    /\ List.length (w_record last) = (List.length agile_data mod 49)%nat.
Proof.
  unfold store_agilerates.
  pose proof (agile_loop_keeps agile_data [] []) as Hkeep.
  destruct (agile_loop_batches agile_data [] [])
    as [Hfull Hlast]; [cbn [List.length]; lia | constructor |].
  destruct (agile_loop agile_data [] []) as [points written].
  cbn [fst snd map List.concat app] in *.
  exists written, {| w_bucket := "energy"; w_record := points |}.
  split; [reflexivity |]. split; [exact Hfull |]. split; [reflexivity |].
  apply (f_equal (@List.length Point)) in Hkeep.
  rewrite length_app, length_map, (length_concat_batches _ Hfull) in Hkeep.
  cbn [w_record].
  pose proof (Nat.div_mod (List.length agile_data) 49).
  pose proof (Nat.mod_upper_bound (List.length agile_data) 49).
  split; lia.
Qed.

(** ** The rate data of [cmd] under the resolver and the enricher *)

Section CmdRateData.

Context {lib : Maya.Lib}.

(** X14.  With the electricity rate data that [cmd] builds, the static
    rate of the resolved band is always there to price a reading that has
    no Agile price: the configured high or low rate, and 0 for a rate the
    configuration does not set. *)
Theorem electricity_static_rate_available config agile measurement rate :
  active_rate_field "electricity" (electricity_rate_data config agile)
    measurement = Ok rate ->
  (rate = "unit_rate_high"
   /\ rate_getitem (electricity_rate_data config agile) rate
      = Ok (default 0%Q (cfg_unit_rate_high config)))
  \/ (rate = "unit_rate_low"
      /\ rate_getitem (electricity_rate_data config agile) rate
         = Ok (default 0%Q (cfg_unit_rate_low config))).
Proof.
  unfold active_rate_field.
  change (String.eqb "electricity" "gas") with false. cbv iota.
  intros H. follow_binds H; injection H as <-; auto.
  destruct (_ || _); auto.
Qed.

(** X15.  With the gas rate data that [cmd] builds, a reading of a meter
    of type 1, or of a meter whose type is not set, keeps its raw
    consumption; for a type above 1 the consumption is multiplied by the
    volume correction factor times the calorific value over 3.6 (1.02264
    and 40 when not set), unless that product is zero.  Nothing of the
    reading is parsed, and nothing is raised. *)
Theorem gas_consumption_field config measurement :
  (default 1 (cfg_gas_meter_type config) <= 1 ->
   fields_for_measurement "gas" (gas_rate_data config) measurement
   = Ok [("consumption", consumption measurement)])
  /\ (default 1 (cfg_gas_meter_type config) > 1 ->
      ~ (default (102264 # 100000) (cfg_gas_vcf config)
         * default 40 (cfg_gas_cv config) / (36 # 10) == 0)%Q ->
      fields_for_measurement "gas" (gas_rate_data config) measurement
      = Ok [("consumption",
             (consumption measurement
              * (default (102264 # 100000) (cfg_gas_vcf config)
                 * default 40 (cfg_gas_cv config) / (36 # 10)))%Q)]).
Proof.
  unfold fields_for_measurement, active_rate_field, agile_data, gas_rate_data.
  cbn [conversion_factor agile_unit_rates from_option id truthy_list].
  change (String.eqb "gas" "gas") with true. cbn [mbind result_bind].
  split.
  - intros Htype.
    destruct (Z.gtb_spec (default 1 (cfg_gas_meter_type config)) 1);
      [lia | reflexivity].
  - intros Htype Hfactor.
    destruct (Z.gtb_spec (default 1 (cfg_gas_meter_type config)) 1);
      [| lia].
    unfold truthy_num.
    destruct (Qeq_bool _ 0) eqn:Ez; [| reflexivity].
    apply Qeq_bool_iff in Ez. contradiction.
Qed.

End CmdRateData.

(** *** The rate data of [cmd] on the samples *)

(** A configuration that sets no rate prices the fallback at 0. *)
Lemma electricity_static_rate_available_witness :
  active_rate_field (lib := Iso.lib) "electricity"
    (electricity_rate_data Cases.unset_config Sample.agile)
    Sample.night_0015 = Ok "unit_rate_high"
  /\ rate_getitem (electricity_rate_data Cases.unset_config Sample.agile)
       "unit_rate_high" = Ok 0%Q.
Proof.
  split; [reflexivity |].
  destruct (electricity_static_rate_available (lib := Iso.lib)
              Cases.unset_config Sample.agile Sample.night_0015
              "unit_rate_high" eq_refl) as [[_ H] | [H _]].
  - exact H.
  - discriminate H.
Defined.

(** A configuration that sets nothing leaves the gas consumption as it
    is read. *)
Lemma gas_consumption_field_witness :
  fields_for_measurement (lib := Iso.lib) "gas"
    (gas_rate_data Cases.unset_config) Sample.gas_reading
  = Ok [("consumption", 10%Q)].
Proof.
  apply (proj1 (gas_consumption_field (lib := Iso.lib) Cases.unset_config
                  Sample.gas_reading)).
  discriminate.
Defined.

(** A gas reading whose [interval_start] is no timestamp is enriched as
    the reading with a good one. *)
Lemma enrich_ignores_interval_start_witness :
  Maya.parse (Lib := Iso.lib) (interval_start Cases.gas_reading_bad_start)
  = None
  /\ enrich (lib := Iso.lib) "gas" Sample.gas_rates
       Cases.gas_reading_bad_start
     = enrich (lib := Iso.lib) "gas" Sample.gas_rates Sample.gas_reading.
Proof.
  split; [reflexivity |].
  apply (enrich_ignores_interval_start (lib := Iso.lib) "gas"
           Sample.gas_rates Cases.gas_reading_bad_start Sample.gas_reading);
    [left | |]; reflexivity.
Defined.
